(** * Anonymous road-report relay bot: a shallow embedding

    The development follows [telegram_bot_chertkovsky.py] (and its twin
    [telegram_bot_chertkovsky_filled.py], whose functions are the same text
    with the configuration written in as constants and no start-up check).

    - Values coming out of the Telegram Bot API are Python objects decoded from
      JSON: they are modelled by the type [json], dictionaries being finite
      maps with string keys.
    - The program talks to the network, prints to the console and sleeps: these
      effects are recorded in a chronological trace of [event]s, the answers of
      the network being supplied by an oracle.
    - Python exceptions are explicit: a computation returns a value or raises. *)

From Stdlib Require Import ZArith Floats.
From stdpp Require Import gmap strings list pretty.

Open Scope Z_scope.

(** ** Python values decoded from JSON *)

#[warnings="-register-all"]
Inductive json :=
| JNull
| JBool (b : bool)
| JInt (z : Z)
| JFloat (f : float)
| JStr (s : string)
| JArr (l : list json)
| JObj (m : gmap string json).

(** The name [type(v).__name__] of a value. *)
Definition type_name (v : json) : string :=
  match v with
  | JNull => "NoneType"
  | JBool _ => "bool"
  | JInt _ => "int"
  | JFloat _ => "float"
  | JStr _ => "str"
  | JArr _ => "list"
  | JObj _ => "dict"
  end.

(** Truth value of an object, as tested by [if v:], [not v] and [a or b]. *)
Definition truthy (v : json) : bool :=
  match v with
  | JNull => false
  | JBool b => b
  | JInt z => negb (z =? 0)
  | JFloat f => negb (PrimFloat.eqb f 0%float)
  | JStr s => match s with EmptyString => false | String _ _ => true end
  | JArr l => match l with [] => false | _ :: _ => true end
  | JObj m => bool_decide (size m ≠ 0%nat)
  end.

(** [v is not None] *)
Definition is_not_None (v : json) : bool :=
  match v with JNull => false | _ => true end.

(** ** Exceptions and results *)

Inductive exn_class :=
| RuntimeError
| RequestException   (* transport failure raised by [requests] *)
| HTTPError          (* raised by [Response.raise_for_status] *)
| JSONDecodeError    (* raised by [Response.json] *)
| AttributeError
| TypeError.

(** Every class above derives from [Exception]; [KeyboardInterrupt], which does
    not, is an operator signal and is not part of the model. *)
Record exn := Exn { exn_kind : exn_class; exn_msg : string }.

(** [str(exc)] *)
Definition exn_str (e : exn) : string := exn_msg e.

Inductive result (A : Type) :=
| Return (a : A)
| Raise (e : exn).
Arguments Return {A} a.
Arguments Raise {A} e.

Definition quote : string := String (Ascii.ascii_of_nat 39) EmptyString.
Definition dquote : string := String (Ascii.ascii_of_nat 34) EmptyString.
Definition nl : string := String (Ascii.ascii_of_nat 10) EmptyString.

(** The no-break space U+00A0, in UTF-8. *)
Definition nbsp : string :=
  String (Ascii.ascii_of_nat 194) (String (Ascii.ascii_of_nat 160) EmptyString).

Definition no_attribute (v : json) (attr : string) : exn :=
  Exn AttributeError
      (quote +:+ type_name v +:+ quote +:+ " object has no attribute " +:+ quote +:+ attr +:+ quote).

(** [d.get(key, dflt)]: only dictionaries have the method. *)
Definition py_get_default (d : json) (key : string) (dflt : json) : result json :=
  match d with
  | JObj m => Return (default dflt (m !! key))
  | _ => Raise (no_attribute d "get")
  end.

(** [d.get(key)] *)
Definition py_get (d : json) (key : string) : result json :=
  py_get_default d key JNull.

(** [v + 1] *)
Definition py_add1 (v : json) : result json :=
  match v with
  | JInt z => Return (JInt (z + 1))
  | JBool b => Return (JInt (Z.b2z b + 1))
  | JFloat f => Return (JFloat (f + 1)%float)
  | JStr _ =>
      Raise (Exn TypeError ("can only concatenate str (not " +:+ dquote +:+ "int" +:+ dquote +:+ ") to str"))
  | JArr _ =>
      Raise (Exn TypeError ("can only concatenate list (not " +:+ dquote +:+ "int" +:+ dquote +:+ ") to list"))
  | JNull | JObj _ =>
      Raise (Exn TypeError
               ("unsupported operand type(s) for +: " +:+ quote +:+ type_name v +:+ quote
                +:+ " and " +:+ quote +:+ "int" +:+ quote))
  end.

Fixpoint chars (s : string) : list json :=
  match s with
  | EmptyString => []
  | String c s' => JStr (String c EmptyString) :: chars s'
  end.

(** The items a [for] loop draws from a value.  A dictionary yields its keys
    and a string its characters (Rocq strings are byte strings, so a character
    outside ASCII is seen as its UTF-8 bytes here); the dictionary's order of
    insertion is not kept by the finite map. *)
Definition py_iter (v : json) : result (list json) :=
  match v with
  | JArr l => Return l
  | JObj m => Return (JStr <$> (map_to_list m).*1)
  | JStr s => Return (chars s)
  | _ => Raise (Exn TypeError (quote +:+ type_name v +:+ quote +:+ " object is not iterable"))
  end.

(** ** The outside world *)

(** What the program reads of a [requests.Response]. *)
Record response := Response {
  status_code : Z;
  reason : string;
  resp_url : string;
  resp_text : string;                (* [response.text], the raw body *)
  resp_json : string + json          (* the body decoded, or the decoder's complaint *)
}.

(** A request either fails in transport (the message of the exception) or is
    answered. *)
Definition http_outcome : Type := string + response.

Inductive event :=
| HttpGet (url : string) (params : gmap string json) (timeout : Z)
| HttpPost (url : string) (data : gmap string json)
| Stdout (line : string)
| Slept (seconds : Z).

Definition is_request (e : event) : bool :=
  match e with
  | HttpGet _ _ _ | HttpPost _ _ => true
  | Stdout _ | Slept _ => false
  end.

Definition requests_made (t : list event) : nat := length (filter is_request t).

(** A publication is the POST that carries the style directive [parse_mode];
    the acknowledgement sent to the author carries none. *)
Definition is_publish (e : event) : bool :=
  match e with
  | HttpPost _ data => match data !! "parse_mode" with Some _ => true | None => false end
  | _ => false
  end.

Definition publish_attempts (t : list event) : nat := length (filter is_publish t).

(** An acknowledgement is the other POST. *)
Definition is_acknowledge (e : event) : bool :=
  match e with
  | HttpPost _ data => match data !! "parse_mode" with Some _ => false | None => true end
  | _ => false
  end.

Definition acknowledgements (t : list event) : nat := length (filter is_acknowledge t).

(** The network: the outcome of the [n]-th request the process makes. *)
Definition network : Type := nat -> http_outcome.

(** ** Effectful computations *)

Definition io (A : Type) : Type := network -> list event -> result A * list event.

Definition ret {A} (a : A) : io A := fun _ t => (Return a, t).

Definition raise {A} (e : exn) : io A := fun _ t => (Raise e, t).

Definition bind {A B} (c : io A) (k : A -> io B) : io B :=
  fun net t =>
    match c net t with
    | (Return a, t') => k a net t'
    | (Raise e, t') => (Raise e, t')
    end.

Definition lift {A} (r : result A) : io A := fun _ t => (r, t).

(** [try: c  except Exception as exc: ...]: the outcome of [c], reified. *)
Definition attempt {A} (c : io A) : io (exn + A) :=
  fun net t =>
    match c net t with
    | (Return a, t') => (Return (inr a), t')
    | (Raise e, t') => (Return (inl e), t')
    end.

Declare Scope io_scope.
Delimit Scope io_scope with io.
Notation "x <- c ;; k" := (bind c (fun x => k))
  (at level 100, c at next level, right associativity) : io_scope.
Notation "c ;;; k" := (bind c (fun _ => k))
  (at level 100, right associativity) : io_scope.
Open Scope io_scope.

Definition emit (e : event) : io unit := fun _ t => (Return tt, t ++ [e]).

Definition print (line : string) : io unit := emit (Stdout line).

Definition sleep (seconds : Z) : io unit := emit (Slept seconds).

Definition answer (net : network) (t : list event) : result response :=
  match net (requests_made t) with
  | inl msg => Raise (Exn RequestException msg)
  | inr r => Return r
  end.

(** [requests.get(url, params=params, timeout=timeout)] *)
Definition requests_get (url : string) (params : gmap string json) (timeout : Z) : io response :=
  fun net t => (answer net t, t ++ [HttpGet url params timeout]).

(** [requests.post(url, data=data)] *)
Definition requests_post (url : string) (data : gmap string json) : io response :=
  fun net t => (answer net t, t ++ [HttpPost url data]).

(** [response.raise_for_status()] *)
Definition raise_for_status (r : response) : result unit :=
  if (400 <=? status_code r) && (status_code r <? 500) then
    Raise (Exn HTTPError
             (pretty (status_code r) +:+ " Client Error: " +:+ reason r +:+ " for url: " +:+ resp_url r))
  else if (500 <=? status_code r) && (status_code r <? 600) then
    Raise (Exn HTTPError
             (pretty (status_code r) +:+ " Server Error: " +:+ reason r +:+ " for url: " +:+ resp_url r))
  else Return tt.

(** [response.json()] *)
Definition response_json (r : response) : result json :=
  match resp_json r with
  | inl msg => Raise (Exn JSONDecodeError msg)
  | inr v => Return v
  end.

(** Monadic left fold: the body of a [for] loop threading one variable. *)
Fixpoint for_each {A S} (body : S -> A -> io S) (items : list A) (s : S) : io S :=
  match items with
  | [] => ret s
  | x :: rest => s' <- body s x ;; for_each body rest s'
  end.

(** Pure code that may raise. *)
Definition rbind {A B} (r : result A) (k : A -> result B) : result B :=
  match r with
  | Return a => k a
  | Raise e => Raise e
  end.

Notation "'let?' x := r 'in' k" := (rbind r (fun x => k))
  (at level 10, x name, r at level 100, k at level 200).

(** [sep.join(parts)] *)
Fixpoint join (sep : string) (parts : list string) : string :=
  match parts with
  | [] => EmptyString
  | [p] => p
  | p :: rest => p +:+ sep +:+ join sep rest
  end.

(** ** Configuration *)

Record config := Config {
  BOT_TOKEN : string;
  CHANNEL_ID : json          (* [str | int] *)
}.

Definition TOKEN_PLACEHOLDER : string := "YOUR_BOT_TOKEN_HERE".
Definition CHANNEL_PLACEHOLDER : string := "YOUR_CHANNEL_ID_HERE".

(** [os.environ.get(name, dflt)] over the process environment. *)
Definition environ_get (environ : gmap string string) (name dflt : string) : string :=
  default dflt (environ !! name).

(** The module-level assignments of [telegram_bot_chertkovsky.py]. *)
Definition load_config (environ : gmap string string) : config :=
  {| BOT_TOKEN := environ_get environ "BOT_TOKEN" TOKEN_PLACEHOLDER;
     CHANNEL_ID := JStr (environ_get environ "CHANNEL_ID" CHANNEL_PLACEHOLDER) |}.

(** [v == s] for a string literal [s]. *)
Definition eq_str (v : json) (s : string) : bool :=
  match v with
  | JStr s' => String.eqb s' s
  | _ => false
  end.

(** The two scripts of the repository.  [Prefilled] is
    [telegram_bot_chertkovsky_filled.py]: it assigns [BOT_TOKEN] and
    [CHANNEL_ID] literal values (not repeated here: nothing below depends on
    them), words two console lines differently and starts without any check. *)
Inductive script := Original | Prefilled.

(** ** What the Bot API sends

    A [Message] carries its location, when it has one, as an object. *)

Definition location_well_typed (m : gmap string json) : bool :=
  match m !! "location" with
  | None | Some (JObj _) => true
  | Some _ => false
  end.

(** The exception a fetch ends with, if any: a transport failure, an error
    status, or a body that is not JSON. *)
Definition fetch_error (o : http_outcome) : option exn :=
  match o with
  | inl msg => Some (Exn RequestException msg)
  | inr r =>
      match raise_for_status r with
      | Raise e => Some e
      | Return _ =>
          match resp_json r with
          | inl msg => Some (Exn JSONDecodeError msg)
          | inr _ => None
          end
      end
  end.



(** A variable of the environment set to a proper value. *)
Definition properly_set (environ : gmap string string) (name placeholder : string) : Prop :=
  exists value, environ !! name = Some value /\ value <> EmptyString /\ value <> placeholder.

(** A chat, when the message has one, is an object whose [id], when it has
    one, is an integer. *)
Definition chat_well_typed (m : gmap string json) : bool :=
  match m !! "chat" with
  | None => true
  | Some (JObj c) =>
      match c !! "id" with
      | None | Some (JInt _) => true
      | Some _ => false
      end
  | Some _ => false
  end.

Definition is_dict (v : json) : bool :=
  match v with JObj _ => true | _ => false end.

(** An update as [getUpdates] documents it: an object with an integer
    [update_id] and, possibly, a message that is an object typed as above. *)
Definition well_formed_update (u : json) : bool :=
  match u with
  | JObj upd =>
      match upd !! "update_id" with Some (JInt _) => true | _ => false end &&
      match upd !! "message" with
      | None => true
      | Some (JObj m) => location_well_typed m && chat_well_typed m
      | Some _ => false
      end
  | _ => false
  end.

(** The update passes the test [if not message] of the loop. *)
Definition message_bearing (u : json) : bool :=
  match u with
  | JObj upd => truthy (default (JObj ∅) (upd !! "message"))
  | _ => false
  end.

(** The chat id a well-typed message gives, [None] when there is none. *)
Definition sender_chat_id (m : gmap string json) : json :=
  match m !! "chat" with
  | Some (JObj c) => default JNull (c !! "id")
  | _ => JNull
  end.

(** The update passes the test and its message names a chat to answer. *)
Definition names_a_chat (u : json) : bool :=
  match u with
  | JObj upd =>
      match upd !! "message" with
      | Some (JObj m) => truthy (JObj m) && is_not_None (sender_chat_id m)
      | _ => false
      end
  | _ => false
  end.

(** The cursor an update with an integer [update_id] leaves behind. *)
Definition next_cursor (u : json) (offset : json) : json :=
  match u with
  | JObj upd =>
      match upd !! "update_id" with
      | Some (JInt z) => JInt (z + 1)
      | _ => offset
      end
  | _ => offset
  end.

(** Every request gets some response (of whatever status). *)
Definition online (net : network) : Prop := forall n, exists r, net n = inr r.

(** ** Sample data for the worked examples *)

(** A stand-in for [repr] that agrees with the interpreter on the two floats
    the examples use. *)
Definition sample_repr (v : json) : string :=
  match v with
  | JFloat f =>
      if PrimFloat.eqb f 1%float then "1.0"
      else if PrimFloat.eqb f 2%float then "2.0"
      else "<float>"
  | _ => "<" +:+ type_name v +:+ ">"
  end.

Definition sample_cfg : config :=
  {| BOT_TOKEN := "123456789:TOKEN"; CHANNEL_ID := JStr "@my_channel" |}.


Definition ok_response (body : json) : response :=
  {| status_code := 200; reason := "OK"; resp_url := "https://api.telegram.org/";
     resp_text := "{...}"; resp_json := inr body |}.

Definition forbidden_response : response :=
  {| status_code := 403; reason := "Forbidden"; resp_url := "https://api.telegram.org/";
     resp_text := "bot is not a member of the channel chat";
     resp_json := inl "Expecting value" |}.

(** The network that answers the successive requests with the listed outcomes
    and is down afterwards. *)
Definition answers (outcomes : list http_outcome) : network :=
  fun n => nth n outcomes (inl "Connection refused").

Definition location_1_2 : json :=
  JObj (<["latitude" := JFloat 1]> (<["longitude" := JFloat 2]> ∅)).

Definition msg_text_caption : gmap string json :=
  <["text" := JStr "T"]> (<["caption" := JStr "C"]> ∅).

Definition msg_caption : gmap string json := {["caption" := JStr "C"]}.

Definition msg_empty_text : gmap string json := {["text" := JStr EmptyString]}.

Definition msg_empty_text_caption : gmap string json :=
  <["text" := JStr EmptyString]> (<["caption" := JStr "C"]> ∅).

Definition msg_empty_text_location : gmap string json :=
  <["text" := JStr EmptyString]> (<["location" := location_1_2]> ∅).

Definition msg_text_location : gmap string json :=
  <["text" := JStr "T"]> (<["location" := location_1_2]> ∅).

Definition msg_bare : gmap string json := {["chat" := JObj {["id" := JInt 999]}]}.

Definition msg_no_chat : gmap string json := {["text" := JStr "T"]}.

Definition msg_null_chat : gmap string json :=
  <["text" := JStr "T"]> (<["chat" := JNull]> ∅).

Definition update_of (update_id : Z) (message : gmap string json) : gmap string json :=
  <["update_id" := JInt update_id]> (<["message" := JObj message]> ∅).

Definition failed_batch : gmap string json := {["ok" := JBool false]}.

Definition msg_bad_location : gmap string json := {["location" := JStr "Chertkovo"]}.

Definition msg_location_only : gmap string json := {["location" := location_1_2]}.

Definition msg_null_location : gmap string json :=
  <["text" := JStr "T"]> (<["location" := JNull]> ∅).

Definition msg_with_chat : gmap string json :=
  <["text" := JStr "T"]> (<["chat" := JObj {["id" := JInt 999]}]> ∅).

Definition batch_of (updates : list json) : gmap string json :=
  <["ok" := JBool true]> (<["result" := JArr updates]> ∅).

(** The network that gives every request the same response. *)
Definition always (r : response) : network := fun _ => inr r.

(** ** The program *)

Section Bot.

(** [repr] of a float, a list or a dictionary is the interpreter's business
    (shortest round-trip digits for floats, quoting rules for nested
    strings); it is a parameter of the development. *)
Variable py_repr : json -> string.

(** [str(v)], which is what an f-string field [{v}] inserts. *)
Definition py_str (v : json) : string :=
  match v with
  | JStr s => s
  | JNull => "None"
  | JBool true => "True"
  | JBool false => "False"
  | JInt z => pretty z
  | JFloat _ | JArr _ | JObj _ => py_repr v
  end.

Variable which : script.
Variable cfg : config.

Definition API_URL : string := "https://api.telegram.org/bot" +:+ BOT_TOKEN cfg.

(** The [params] dictionary [get_updates] builds. *)
Definition get_updates_params (offset : json) (timeout : Z) : gmap string json :=
  let params : gmap string json :=
    <["timeout" := JInt timeout]> (<["allowed_updates" := JArr [JStr "message"]]> ∅) in
  if truthy offset then <["offset" := offset]> params else params.

Definition get_updates (offset : json) (timeout : Z) : io json :=
  response <- requests_get (API_URL +:+ "/getUpdates") (get_updates_params offset timeout) (timeout + 5) ;;
  lift (raise_for_status response) ;;;
  lift (response_json response).

Definition send_message_payload (text : string) : gmap string json :=
  <["chat_id" := CHANNEL_ID cfg]> (<["text" := JStr text]> (<["parse_mode" := JStr "HTML"]> ∅)).

Definition send_failed_line (exc : exn) (response : response) : string :=
  "Не удалось отправить сообщение: " +:+ exn_str exc +:+ nl +:+ "Ответ: " +:+ resp_text response.

Definition send_message (text : string) : io unit :=
  response <- requests_post (API_URL +:+ "/sendMessage") (send_message_payload text) ;;
  outcome <- attempt (lift (raise_for_status response)) ;;
  match outcome with
  | inr _ => ret tt
  | inl exc => print (send_failed_line exc response)
  end.

Definition text_block (text : json) : string := "<b>Сообщение:</b> " +:+ py_str text.

Definition location_block (lat lon : json) : string :=
  "<b>Местоположение:</b> " +:+ py_str lat +:+ ", " +:+ py_str lon.

Definition PLACEHOLDER : string := "(пустое сообщение)".

Definition build_forward_text (message : json) : result string :=
  let parts : list string := [] in
  let? text0 := py_get message "text" in
  let? text := if truthy text0 then Return text0 else py_get message "caption" in
  let parts := if truthy text then parts ++ [text_block text] else parts in
  let? location := py_get message "location" in
  let? parts :=
    if truthy location then
      let? lat := py_get location "latitude" in
      let? lon := py_get location "longitude" in
      Return (parts ++ [location_block lat lon])
    else Return parts in
  let parts := match parts with [] => parts ++ [PLACEHOLDER] | _ :: _ => parts end in
  Return (join nl parts).

Definition CONFIRMATION : string := "Спасибо! Ваше сообщение отправлено анонимно.".

Definition confirm_payload (chat_id : json) : gmap string json :=
  <["chat_id" := chat_id]> (<["text" := JStr CONFIRMATION]> ∅).

(** The acknowledgement: [requests.post] with the response dropped. *)
Definition acknowledge (chat_id : json) : io unit :=
  _ <- requests_post (API_URL +:+ "/sendMessage") (confirm_payload chat_id) ;; ret tt.

(** One turn of the [for update in ...] loop of [main]; the value is the
    [offset] variable after the turn. *)
Definition process_update (offset : json) (update : json) : io json :=
  update_id <- lift (py_get update "update_id") ;;
  message <- lift (py_get_default update "message" (JObj ∅)) ;;
  if negb (truthy message) then
    if is_not_None update_id then lift (py_add1 update_id) else ret JNull
  else
    forward_text <- lift (build_forward_text message) ;;
    send_message forward_text ;;;
    chat <- lift (py_get_default message "chat" (JObj ∅)) ;;
    chat_id <- lift (py_get chat "id") ;;
    (if is_not_None chat_id then acknowledge chat_id else ret tt) ;;;
    if is_not_None update_id then lift (py_add1 update_id) else ret offset.

Definition fetch_failed_line (exc : exn) : string :=
  "Ошибка при получении обновлений: " +:+ exn_str exc +:+
  match which with
  | Original => ". Перезапрос через 5" +:+ nbsp +:+ "секунд."
  | Prefilled => ". Повтор через 5" +:+ nbsp +:+ "секунд."
  end.

Definition api_error_line (updates : json) : string :=
  "Telegram API вернул ошибку: " +:+ py_str updates.

(** One turn of the [while True] loop of [main]; the value is the [offset]
    variable at the end of the turn. *)
Definition loop_body (offset : json) : io json :=
  fetched <- attempt (get_updates offset 30) ;;
  match fetched with
  | inl exc =>
      print (fetch_failed_line exc) ;;;
      sleep 5 ;;;
      ret offset
  | inr updates =>
      ok <- lift (py_get_default updates "ok" (JBool false)) ;;
      if negb (truthy ok) then
        print (api_error_line updates) ;;;
        sleep 5 ;;;
        ret offset
      else
        batch <- lift (py_get_default updates "result" (JArr [])) ;;
        items <- lift (py_iter batch) ;;
        offset' <- for_each process_update items offset ;;
        sleep 1 ;;;
        ret offset'
  end.

(** The first [turns] turns of the endless loop; the value is the cursor
    they leave behind. *)
Fixpoint relay_loop (turns : nat) (offset : json) : io json :=
  match turns with
  | O => ret offset
  | S n => offset' <- loop_body offset ;; relay_loop n offset'
  end.

Definition NO_TOKEN : string :=
  "Не указан BOT_TOKEN. Задайте переменную окружения BOT_TOKEN или пропишите её в коде.".

Definition NO_CHANNEL : string :=
  "Не указан CHANNEL_ID. Задайте переменную окружения CHANNEL_ID или пропишите её в коде.".

Definition STARTING : string :=
  match which with
  | Original => "Запуск бота. Нажмите Ctrl+C для остановки."
  | Prefilled => "Запуск бота с заданными токеном и каналом. Нажмите Ctrl+C для остановки."
  end.

(** The check that opens [main] in the original script. *)
Definition check_config : result unit :=
  if negb (truthy (JStr (BOT_TOKEN cfg))) || String.eqb (BOT_TOKEN cfg) TOKEN_PLACEHOLDER then
    Raise (Exn RuntimeError NO_TOKEN)
  else if negb (truthy (CHANNEL_ID cfg)) || eq_str (CHANNEL_ID cfg) CHANNEL_PLACEHOLDER then
    Raise (Exn RuntimeError NO_CHANNEL)
  else Return tt.

Definition main (turns : nat) : io json :=
  match which with
  | Original => lift check_config
  | Prefilled => ret tt
  end ;;;
  print STARTING ;;;
  relay_loop turns JNull.

(** The value [message.get("text") or message.get("caption")]. *)
Definition chosen_text (m : gmap string json) : json :=
  if truthy (default JNull (m !! "text")) then default JNull (m !! "text")
  else default JNull (m !! "caption").

(** The value [message.get("chat", {}).get("id")]. *)
Definition chat_id_of (message : json) : result json :=
  let? chat := py_get_default message "chat" (JObj ∅) in py_get chat "id".

(** The console lines [send_message] prints on a response. *)
Definition publish_log (r : response) : list string :=
  match raise_for_status r with
  | Return _ => []
  | Raise exc => [send_failed_line exc r]
  end.

(** ** Properties *)

(** *** Strings *)

Lemma append_empty_r (s : string) : s +:+ EmptyString = s.
Proof.
  induction s as [|c s IH]; [reflexivity |].
  change (String c (s +:+ EmptyString) = String c s). now f_equal.
Qed.

Lemma append_assoc (a b c : string) : (a +:+ b) +:+ c = a +:+ (b +:+ c).
Proof.
  induction a as [|x a IH]; [reflexivity |].
  change (String x ((a +:+ b) +:+ c) = String x (a +:+ (b +:+ c))). now f_equal.
Qed.

Lemma truthy_str (s : string) : s <> EmptyString -> truthy (JStr s) = true.
Proof. destruct s; [congruence | reflexivity]. Qed.


(** *** Reading dictionaries *)

Lemma py_get_obj (m : gmap string json) (k : string) :
  py_get (JObj m) k = Return (default JNull (m !! k)).
Proof. reflexivity. Qed.

Lemma py_get_default_obj (m : gmap string json) (k : string) (d : json) :
  py_get_default (JObj m) k d = Return (default d (m !! k)).
Proof. reflexivity. Qed.

(** *** [build_forward_text] *)

(** What the function computes on a dictionary whose location is usable. *)
Lemma build_forward_text_obj (m : gmap string json) :
  location_well_typed m = true ->
  build_forward_text (JObj m) =
    Return (join nl
      match (if truthy (chosen_text m) then [text_block (chosen_text m)] else []) ++
            match m !! "location" with
            | Some (JObj loc) =>
                if truthy (JObj loc)
                then [location_block (default JNull (loc !! "latitude"))
                                     (default JNull (loc !! "longitude"))]
                else []
            | _ => []
            end
      with
      | [] => [PLACEHOLDER]
      | p :: ps => p :: ps
      end).
Proof.
  unfold location_well_typed, build_forward_text, chosen_text.
  intros Hloc. rewrite !py_get_obj. cbn [rbind].
  generalize (default JNull (m !! "text")) (default JNull (m !! "caption")).
  intros text0 caption.
  destruct (m !! "location") as [[| | | | | |loc]|]; try discriminate Hloc;
    cbn [default from_option id truthy];
    try destruct (bool_decide (size loc ≠ 0%nat));
    destruct (truthy text0) eqn:Htext; cbn [rbind];
    rewrite ?py_get_obj; cbn [rbind]; rewrite ?Htext;
    try (destruct (truthy caption) eqn:Hcaption; rewrite ?Hcaption);
    cbn [rbind app]; reflexivity.
Qed.

(** When some text is chosen, the result opens with its block. *)
Lemma build_forward_text_opens_with_text (m : gmap string json) :
  location_well_typed m = true ->
  truthy (chosen_text m) = true ->
  exists rest, build_forward_text (JObj m) = Return (text_block (chosen_text m) +:+ rest).
Proof.
  intros Hloc Htext. rewrite (build_forward_text_obj m Hloc), Htext.
  destruct (m !! "location") as [[| | | | | |loc]|];
    try (exists EmptyString; cbn [app join]; now rewrite append_empty_r).
  destruct (truthy (JObj loc)).
  - eexists. cbn [app join]. reflexivity.
  - exists EmptyString. cbn [app join]. now rewrite append_empty_r.
Qed.

(** C2 (amended): [build_forward_text] takes [text] when it is a non-empty
    string, and [caption] when [text] is absent or empty and [caption] is a
    non-empty string; in both cases the result begins with the bold label
    followed by that content.  A message with [caption = C] and no [text]
    gives the same result as the message with [text = C] instead. *)
Theorem build_forward_text_text_then_caption
    (m : gmap string json) (Hloc : location_well_typed m = true) :
  (forall T, m !! "text" = Some (JStr T) -> T <> EmptyString ->
     exists rest, build_forward_text (JObj m) = Return ("<b>Сообщение:</b> " +:+ T +:+ rest)) /\
  (forall C, m !! "text" = None \/ m !! "text" = Some (JStr EmptyString) ->
     m !! "caption" = Some (JStr C) -> C <> EmptyString ->
     exists rest, build_forward_text (JObj m) = Return ("<b>Сообщение:</b> " +:+ C +:+ rest)) /\
  (forall C, m !! "text" = None -> m !! "caption" = None ->
     build_forward_text (JObj (<["caption" := JStr C]> m)) =
     build_forward_text (JObj (<["text" := JStr C]> m))).
Proof.
  split; [| split].
  - intros T HT Hne.
    assert (Hchosen : chosen_text m = JStr T).
    { unfold chosen_text. rewrite HT. cbn [default from_option id]. now rewrite truthy_str. }
    destruct (build_forward_text_opens_with_text m Hloc) as [rest Hrest].
    + rewrite Hchosen. now apply truthy_str.
    + exists rest. rewrite Hrest, Hchosen. unfold text_block. cbn [py_str].
      now rewrite append_assoc.
  - intros C HT HC Hne.
    assert (Hchosen : chosen_text m = JStr C).
    { unfold chosen_text. rewrite HC. now destruct HT as [-> | ->]. }
    destruct (build_forward_text_opens_with_text m Hloc) as [rest Hrest].
    + rewrite Hchosen. now apply truthy_str.
    + exists rest. rewrite Hrest, Hchosen. unfold text_block. cbn [py_str].
      now rewrite append_assoc.
  - intros C HT HC.
    assert (Hloc1 : location_well_typed (<["caption" := JStr C]> m) = true).
    { unfold location_well_typed in *. now rewrite lookup_insert_ne. }
    assert (Hloc2 : location_well_typed (<["text" := JStr C]> m) = true).
    { unfold location_well_typed in *. now rewrite lookup_insert_ne. }
    rewrite (build_forward_text_obj _ Hloc1), (build_forward_text_obj _ Hloc2).
    unfold chosen_text.
    rewrite !lookup_insert_eq, !(lookup_insert_ne m "caption"), !(lookup_insert_ne m "text") by done.
    rewrite HT, HC. cbn [default from_option id].
    destruct C; reflexivity.
Qed.

(** *** Effects of the helpers *)

Lemma send_message_spec (text : string) (net : network) (t : list event) :
  send_message text net t =
    let post := HttpPost (API_URL +:+ "/sendMessage") (send_message_payload text) in
    match net (requests_made t) with
    | inl msg => (Raise (Exn RequestException msg), t ++ [post])
    | inr r =>
        match raise_for_status r with
        | Return _ => (Return tt, t ++ [post])
        | Raise exc => (Return tt, t ++ [post; Stdout (send_failed_line exc r)])
        end
    end.
Proof.
  unfold send_message, bind, requests_post, answer, attempt, lift, print, emit, ret.
  destruct (net (requests_made t)) as [msg | r]; [reflexivity |].
  destruct (raise_for_status r); [reflexivity |].
  now rewrite <- app_assoc.
Qed.

Lemma acknowledge_spec (chat_id : json) (net : network) (t : list event) :
  acknowledge chat_id net t =
    (match net (requests_made t) with
     | inl msg => Raise (Exn RequestException msg)
     | inr _ => Return tt
     end,
     t ++ [HttpPost (API_URL +:+ "/sendMessage") (confirm_payload chat_id)]).
Proof.
  unfold acknowledge, bind, requests_post, answer, ret.
  now destruct (net (requests_made t)).
Qed.

(** The turn of the [for] loop on an update that is a dictionary, one layer
    of effects at a time. *)
Lemma process_update_obj (offset : json) (upd : gmap string json) (net : network) (t : list event) :
  process_update offset (JObj upd) net t =
    let update_id := default JNull (upd !! "update_id") in
    let message := default (JObj ∅) (upd !! "message") in
    if truthy message then
      match build_forward_text message with
      | Raise e => (Raise e, t)
      | Return forward_text =>
          match send_message forward_text net t with
          | (Raise e, t1) => (Raise e, t1)
          | (Return _, t1) =>
              match chat_id_of message with
              | Raise e => (Raise e, t1)
              | Return chat_id =>
                  let advance t' :=
                    ((if is_not_None update_id then py_add1 update_id else Return offset), t') in
                  if is_not_None chat_id then
                    match acknowledge chat_id net t1 with
                    | (Raise e, t2) => (Raise e, t2)
                    | (Return _, t2) => advance t2
                    end
                  else advance t1
              end
          end
      end
    else ((if is_not_None update_id then py_add1 update_id else Return JNull), t).
Proof.
  unfold process_update, chat_id_of. rewrite py_get_obj, py_get_default_obj.
  unfold bind at 1 2. unfold lift at 1 2.
  destruct (truthy (default (JObj ∅) (upd !! "message"))); cbn [negb].
  2: { unfold lift, ret. now destruct (is_not_None _). }
  unfold bind at 1. unfold lift at 1.
  destruct (build_forward_text _) as [forward_text | e]; [| reflexivity].
  unfold bind at 1.
  destruct (send_message forward_text net t) as [[[] | e] t1]; [| reflexivity].
  unfold bind at 1. unfold lift at 1.
  destruct (py_get_default _ "chat" _) as [chat | e]; [| reflexivity]. cbn [rbind].
  unfold bind at 1. unfold lift at 1.
  destruct (py_get chat "id") as [chat_id | e]; [| reflexivity].
  unfold bind at 1.
  destruct (is_not_None chat_id).
  - destruct (acknowledge chat_id net t1) as [[[] | e] t2]; [| reflexivity].
    unfold lift, ret. now destruct (is_not_None _).
  - unfold ret at 1. unfold lift, ret. now destruct (is_not_None _).
Qed.

Lemma truthy_obj_lookup (m : gmap string json) (k : string) (v : json) :
  m !! k = Some v -> truthy (JObj m) = true.
Proof.
  intros Hk. cbn [truthy]. apply bool_decide_eq_true. intros Hsize.
  apply map_size_empty_iff in Hsize. subst m. now rewrite lookup_empty in Hk.
Qed.

Lemma truthy_obj_size (m : gmap string json) :
  size m <> 0%nat -> truthy (JObj m) = true.
Proof. intros Hsize. cbn [truthy]. now apply bool_decide_eq_true. Qed.

(** *** The cursor *)

(** An update without a message moves the cursor just past it. *)
Lemma process_update_service (offset : json) (upd : gmap string json) (z : Z)
    (net : network) (t : list event) :
  upd !! "update_id" = Some (JInt z) ->
  upd !! "message" = None ->
  process_update offset (JObj upd) net t = (Return (JInt (z + 1)), t).
Proof. intros Hid Hmsg. rewrite process_update_obj. cbn zeta. now rewrite Hid, Hmsg. Qed.

(** A message-bearing update without [update_id] leaves the cursor alone:
    whenever its turn completes, the value is the old [offset]. *)
Lemma process_update_message_keeps_cursor (offset : json) (upd : gmap string json)
    (net : network) (t : list event) (offset' : json) (t' : list event) :
  upd !! "update_id" = None ->
  truthy (default (JObj ∅) (upd !! "message")) = true ->
  process_update offset (JObj upd) net t = (Return offset', t') ->
  offset' = offset.
Proof.
  intros Hid Hmsg. rewrite process_update_obj. cbn zeta. rewrite Hid, Hmsg.
  cbn [default from_option id is_not_None].
  destruct (build_forward_text _); [| discriminate].
  destruct (send_message _ _ _) as [[[] | ?] ?]; [| discriminate].
  destruct (chat_id_of _) as [chat_id | ?]; [| discriminate].
  destruct (is_not_None chat_id).
  - destruct (acknowledge _ _ _) as [[[] | ?] ?]; [| discriminate]. congruence.
  - congruence.
Qed.

(** C1 (what the code does): an update that carries neither [update_id] nor
    a message sets the cursor to [None], whatever it was: line 171 assigns
    [None] where line 185 keeps the old value. *)
Theorem process_update_resets_cursor (offset : json) (net : network) (t : list event) :
  process_update offset (JObj ∅) net t = (Return JNull, t).
Proof. rewrite process_update_obj. cbn zeta. now rewrite !lookup_empty. Qed.

(** *** The published text *)

(** C3 (amended): for a message with no [text], no [caption] and no
    [location], [build_forward_text] returns exactly the placeholder, which
    is not the empty string; when the message dictionary is not empty
    (it has some other key, such as [chat]) the turn of the loop posts that
    placeholder to the channel; when it is empty the update is handled as one
    without message: the turn makes no request and prints nothing, and the
    cursor moves just past an integer [update_id]. *)
Theorem bare_message_is_published_as_placeholder
    (m : gmap string json)
    (Htext : m !! "text" = None) (Hcaption : m !! "caption" = None)
    (Hlocation : m !! "location" = None) :
  build_forward_text (JObj m) = Return "(пустое сообщение)" /\
  build_forward_text (JObj m) <> Return EmptyString /\
  (size m <> 0%nat ->
   forall (upd : gmap string json) (offset : json) (net : network) (t : list event),
     upd !! "message" = Some (JObj m) ->
     exists r rest,
       process_update offset (JObj upd) net t =
         (r, t ++ HttpPost (API_URL +:+ "/sendMessage")
                           (send_message_payload "(пустое сообщение)") :: rest)) /\
  (size m = 0%nat ->
   forall (upd : gmap string json) (offset : json) (net : network) (t : list event),
     upd !! "message" = Some (JObj m) ->
     (process_update offset (JObj upd) net t).2 = t /\
     (forall z, upd !! "update_id" = Some (JInt z) ->
        process_update offset (JObj upd) net t = (Return (JInt (z + 1)), t))).
Proof.
  assert (Hbft : build_forward_text (JObj m) = Return "(пустое сообщение)").
  { rewrite build_forward_text_obj by (unfold location_well_typed; now rewrite Hlocation).
    unfold chosen_text. rewrite Htext, Hcaption, Hlocation. reflexivity. }
  split; [exact Hbft | split; [rewrite Hbft; discriminate | split]].
  - intros Hsize upd offset net t Hmsg.
    rewrite process_update_obj. cbn zeta. rewrite Hmsg. cbn [default from_option id].
    rewrite (truthy_obj_size m Hsize), Hbft, send_message_spec. cbn zeta.
    destruct (net (requests_made t)) as [msg | r0]; [eexists _, []; reflexivity |].
    destruct (raise_for_status r0);
      (destruct (chat_id_of (JObj m)) as [chat_id | ?]; [| eexists _, _; reflexivity]);
      (destruct (is_not_None chat_id);
       [rewrite acknowledge_spec; destruct (net _);
        eexists _, _; rewrite <- app_assoc; reflexivity
       | eexists _, _; reflexivity]).
  - intros Hsize upd offset net t Hmsg.
    assert (Hfalsy : truthy (JObj m) = false).
    { cbn [truthy]. apply bool_decide_eq_false. intros Hne. now apply Hne. }
    rewrite process_update_obj. cbn zeta. rewrite Hmsg. cbn [default from_option id].
    rewrite Hfalsy. split; [reflexivity |].
    intros z Hid. now rewrite Hid.
Qed.

(** C8 (amended): for a message whose [text] is a non-empty string and whose
    [location] is an object holding [latitude] and [longitude], the result is
    the text block, one newline, then the location block, the two
    coordinates being inserted by [str] exactly as stored. *)
Theorem build_forward_text_text_and_location
    (m loc : gmap string json) (T : string) (lat lon : json)
    (Htext : m !! "text" = Some (JStr T)) (HT : T <> EmptyString)
    (Hlocation : m !! "location" = Some (JObj loc))
    (Hlat : loc !! "latitude" = Some lat) (Hlon : loc !! "longitude" = Some lon) :
  build_forward_text (JObj m) =
    Return ("<b>Сообщение:</b> " +:+ T +:+ nl +:+
            "<b>Местоположение:</b> " +:+ py_str lat +:+ ", " +:+ py_str lon).
Proof.
  assert (Hchosen : chosen_text m = JStr T).
  { unfold chosen_text. rewrite Htext. cbn [default from_option id]. now rewrite truthy_str. }
  rewrite build_forward_text_obj by (unfold location_well_typed; now rewrite Hlocation).
  rewrite Hchosen, Hlocation, Hlat, Hlon, (truthy_str T HT), (truthy_obj_lookup loc _ _ Hlat).
  cbn [app join default from_option id]. unfold text_block, location_block. cbn [py_str].
  now rewrite append_assoc.
Qed.

(** *** Fetching *)

(** The request [get_updates] makes, whatever comes back. *)
Lemma get_updates_request (offset : json) (timeout : Z) (net : network) (t : list event) :
  (get_updates offset timeout net t).2 =
    t ++ [HttpGet (API_URL +:+ "/getUpdates") (get_updates_params offset timeout) (timeout + 5)].
Proof.
  unfold get_updates, bind, requests_get, lift.
  destruct (answer net t) as [r | e]; [| reflexivity].
  now destruct (raise_for_status r).
Qed.

(** C9: with [offset = 0] the request parameters carry no [offset] key and
    the call is the same computation as with [offset = None]: in both cases
    the one request that goes out is the GET of [getUpdates] with [timeout]
    and [allowed_updates] only.  The cursor is forwarded, as it is, exactly
    when it is truthy, so every non-zero integer is: the GET then carries it
    under [offset]. *)
Theorem get_updates_offset_zero_is_none (timeout : Z) :
  get_updates_params (JInt 0) timeout !! "offset" = None /\
  get_updates_params (JInt 0) timeout = get_updates_params JNull timeout /\
  get_updates (JInt 0) timeout = get_updates JNull timeout /\
  (forall offset : json,
     get_updates_params offset timeout !! "offset" =
       if truthy offset then Some offset else None) /\
  (forall z, z <> 0 -> get_updates_params (JInt z) timeout !! "offset" = Some (JInt z)) /\
  (forall (net : network) (t : list event),
     (get_updates (JInt 0) timeout net t).2 =
       t ++ [HttpGet (API_URL +:+ "/getUpdates")
               (<["timeout" := JInt timeout]> (<["allowed_updates" := JArr [JStr "message"]]> ∅))
               (timeout + 5)] /\
     (get_updates JNull timeout net t).2 =
       t ++ [HttpGet (API_URL +:+ "/getUpdates")
               (<["timeout" := JInt timeout]> (<["allowed_updates" := JArr [JStr "message"]]> ∅))
               (timeout + 5)] /\
     (<["timeout" := JInt timeout]> (<["allowed_updates" := JArr [JStr "message"]]> ∅)
        : gmap string json) !! "offset" = None) /\
  (forall (offset : json) (net : network) (t : list event),
     truthy offset = true ->
     (get_updates offset timeout net t).2 =
       t ++ [HttpGet (API_URL +:+ "/getUpdates")
               (<["offset" := offset]>
                  (<["timeout" := JInt timeout]>
                     (<["allowed_updates" := JArr [JStr "message"]]> ∅)))
               (timeout + 5)]).
Proof.
  split; [| split; [| split; [| split; [| split; [| split]]]]]; try reflexivity.
  - intros offset. unfold get_updates_params.
    destruct (truthy offset); [apply lookup_insert_eq | reflexivity].
  - intros z Hz. unfold get_updates_params. cbn [truthy].
    destruct (Z.eqb_spec z 0) as [-> | _]; [congruence |]. cbn [negb].
    apply lookup_insert_eq.
  - intros net t. rewrite !get_updates_request. split; [reflexivity | split; [reflexivity |]].
    rewrite !lookup_insert_ne by done. apply lookup_empty.
  - intros offset net t Htruthy. rewrite get_updates_request.
    unfold get_updates_params. now rewrite Htruthy.
Qed.

(** *** Counting requests in a trace *)

Lemma requests_made_snoc (t : list event) (e : event) :
  requests_made (t ++ [e]) = (requests_made t + (if is_request e then 1 else 0))%nat.
Proof.
  unfold requests_made. rewrite filter_app, length_app. f_equal.
  rewrite filter_cons, filter_nil. now destruct (is_request e).
Qed.

Lemma requests_made_post (t : list event) (url : string) (data : gmap string json) :
  requests_made (t ++ [HttpPost url data]) = S (requests_made t).
Proof. rewrite requests_made_snoc. cbn [is_request]. lia. Qed.

Lemma requests_made_get (t : list event) (url : string) (params : gmap string json) (timeout : Z) :
  requests_made (t ++ [HttpGet url params timeout]) = S (requests_made t).
Proof. rewrite requests_made_snoc. cbn [is_request]. lia. Qed.

Lemma publish_attempts_app (t t' : list event) :
  publish_attempts (t ++ t') = (publish_attempts t + publish_attempts t')%nat.
Proof. unfold publish_attempts. now rewrite filter_app, length_app. Qed.

Lemma acknowledgements_app (t t' : list event) :
  acknowledgements (t ++ t') = (acknowledgements t + acknowledgements t')%nat.
Proof. unfold acknowledgements. now rewrite filter_app, length_app. Qed.

Lemma send_message_payload_styled (text : string) :
  send_message_payload text !! "parse_mode" = Some (JStr "HTML").
Proof.
  unfold send_message_payload.
  rewrite !lookup_insert_ne by done. apply lookup_insert_eq.
Qed.

Lemma confirm_payload_plain (chat_id : json) :
  confirm_payload chat_id !! "parse_mode" = None.
Proof.
  unfold confirm_payload.
  rewrite !lookup_insert_ne by done. apply lookup_empty.
Qed.

Lemma publish_attempts_cons (e : event) (t : list event) :
  publish_attempts (e :: t) = ((if is_publish e then 1 else 0) + publish_attempts t)%nat.
Proof. unfold publish_attempts. rewrite filter_cons. now destruct (is_publish e). Qed.

Lemma acknowledgements_cons (e : event) (t : list event) :
  acknowledgements (e :: t) = ((if is_acknowledge e then 1 else 0) + acknowledgements t)%nat.
Proof. unfold acknowledgements. rewrite filter_cons. now destruct (is_acknowledge e). Qed.

Lemma is_publish_post (url : string) (text : string) :
  is_publish (HttpPost url (send_message_payload text)) = true.
Proof. cbn [is_publish]. now rewrite send_message_payload_styled. Qed.

Lemma is_publish_confirm (url : string) (chat_id : json) :
  is_publish (HttpPost url (confirm_payload chat_id)) = false.
Proof. cbn [is_publish]. now rewrite confirm_payload_plain. Qed.

Lemma is_acknowledge_post (url : string) (text : string) :
  is_acknowledge (HttpPost url (send_message_payload text)) = false.
Proof. cbn [is_acknowledge]. now rewrite send_message_payload_styled. Qed.

Lemma is_acknowledge_confirm (url : string) (chat_id : json) :
  is_acknowledge (HttpPost url (confirm_payload chat_id)) = true.
Proof. cbn [is_acknowledge]. now rewrite confirm_payload_plain. Qed.

(** [send_message] adds one publication to the trace, and nothing else that
    is a request. *)
Lemma send_message_counts (text : string) (net : network) (t : list event) :
  publish_attempts (send_message text net t).2 = S (publish_attempts t) /\
  acknowledgements (send_message text net t).2 = acknowledgements t.
Proof.
  rewrite send_message_spec. cbn zeta.
  destruct (net (requests_made t)) as [msg | r]; [| destruct (raise_for_status r)]; cbn [snd];
    rewrite publish_attempts_app, acknowledgements_app,
      ?publish_attempts_cons, ?acknowledgements_cons,
      is_publish_post, is_acknowledge_post;
    cbn [is_publish is_acknowledge];
    change (publish_attempts []) with 0%nat; change (acknowledgements []) with 0%nat;
    split; lia.
Qed.

Lemma process_update_counts (offset update : json) (net : network) (t : list event) :
  (publish_attempts (process_update offset update net t).2 <= S (publish_attempts t))%nat.
Proof.
  destruct update as [| | | | | |upd];
    try (unfold process_update, bind, lift; cbn [py_get py_get_default snd]; lia).
  rewrite process_update_obj. cbn zeta.
  destruct (truthy _); [| cbn [snd]; lia].
  destruct (build_forward_text _) as [text | e]; [| cbn [snd]; lia].
  destruct (send_message_counts text net t) as [Hpub _].
  destruct (send_message text net t) as [[[] | e] t1]; cbn [snd] in *; [| lia].
  destruct (chat_id_of _) as [chat_id | e]; [| cbn [snd]; lia].
  destruct (is_not_None chat_id); [| cbn [snd]; lia].
  rewrite acknowledge_spec.
  assert (Hack : publish_attempts
            (t1 ++ [HttpPost (API_URL +:+ "/sendMessage") (confirm_payload chat_id)])
          = S (publish_attempts t)).
  { rewrite publish_attempts_app, publish_attempts_cons, is_publish_confirm.
    change (publish_attempts []) with 0%nat. lia. }
  destruct (net (requests_made t1)); cbn [snd]; lia.
Qed.

(** C4: when the channel POST is answered with an error status,
    [send_message] prints the exception and the raw body and returns
    normally; the turn of the loop goes on from there with the steps that
    follow a successful publication (acknowledgement, cursor), and a turn
    never makes more than one publication attempt. *)
Theorem failed_publish_is_logged_and_dropped
    (text : string) (net : network) (t : list event) (r : response) (exc : exn)
    (Hanswer : net (requests_made t) = inr r)
    (Hstatus : raise_for_status r = Raise exc) :
  let post := HttpPost (API_URL +:+ "/sendMessage") (send_message_payload text) in
  let line := "Не удалось отправить сообщение: " +:+ exn_str exc +:+ nl +:+
              "Ответ: " +:+ resp_text r in
  send_message text net t = (Return tt, t ++ [post; Stdout line]) /\
  (forall (offset : json) (upd m : gmap string json),
     upd !! "message" = Some (JObj m) -> size m <> 0%nat ->
     build_forward_text (JObj m) = Return text ->
     process_update offset (JObj upd) net t =
       (chat_id <- lift (chat_id_of (JObj m)) ;;
        (if is_not_None chat_id then acknowledge chat_id else ret tt) ;;;
        if is_not_None (default JNull (upd !! "update_id"))
        then lift (py_add1 (default JNull (upd !! "update_id")))
        else ret offset) net (t ++ [post; Stdout line])) /\
  (forall (offset update : json),
     (publish_attempts (process_update offset update net t).2 <= S (publish_attempts t))%nat).
Proof.
  cbn zeta.
  assert (Hsend : send_message text net t =
            (Return tt, t ++ [HttpPost (API_URL +:+ "/sendMessage") (send_message_payload text);
                              Stdout (send_failed_line exc r)])).
  { rewrite send_message_spec. cbn zeta. now rewrite Hanswer, Hstatus. }
  split; [exact Hsend | split].
  - intros offset upd m Hmsg Hsize Htext.
    rewrite process_update_obj. cbn zeta. rewrite Hmsg. cbn [default from_option id].
    rewrite (truthy_obj_size m Hsize), Htext, Hsend.
    unfold bind, lift, ret, send_failed_line.
    destruct (chat_id_of (JObj m)) as [chat_id | e]; [| reflexivity].
    destruct (is_not_None chat_id).
    + destruct (acknowledge chat_id net _) as [[[] | e] t2]; [| reflexivity].
      now destruct (is_not_None _).
    + now destruct (is_not_None _).
  - intros offset update. apply process_update_counts.
Qed.

(** *** Messages without a chat id *)

Lemma build_forward_text_ext (m1 m2 : gmap string json) :
  m1 !! "text" = m2 !! "text" ->
  m1 !! "caption" = m2 !! "caption" ->
  m1 !! "location" = m2 !! "location" ->
  build_forward_text (JObj m1) = build_forward_text (JObj m2).
Proof.
  intros Htext Hcaption Hlocation. unfold build_forward_text.
  now rewrite !py_get_obj, Htext, Hcaption, Hlocation.
Qed.

Lemma requests_made_app (t t' : list event) :
  requests_made (t ++ t') = (requests_made t + requests_made t')%nat.
Proof. unfold requests_made. now rewrite filter_app, length_app. Qed.

Lemma requests_made_stdout (lines : list string) : requests_made (map Stdout lines) = 0%nat.
Proof.
  induction lines as [| l lines IH]; [reflexivity |].
  cbn [map]. change (Stdout l :: map Stdout lines) with ([Stdout l] ++ map Stdout lines).
  now rewrite requests_made_app, IH.
Qed.

Lemma requests_made_logged (t : list event) (p : event) (lines : list string) :
  is_request p = true ->
  requests_made (t ++ p :: map Stdout lines) = S (requests_made t).
Proof.
  intros Hp. change (p :: map Stdout lines) with ([p] ++ map Stdout lines).
  rewrite app_assoc, requests_made_app, requests_made_snoc, Hp, requests_made_stdout. lia.
Qed.

Lemma send_message_answered (text : string) (net : network) (t : list event) (r : response) :
  net (requests_made t) = inr r ->
  send_message text net t =
    (Return tt,
     t ++ HttpPost (API_URL +:+ "/sendMessage") (send_message_payload text)
          :: map Stdout (publish_log r)).
Proof.
  intros Hanswer. rewrite send_message_spec. cbn zeta. rewrite Hanswer. unfold publish_log.
  now destruct (raise_for_status r).
Qed.

(** C10 (amended): take an update with an integer [update_id] whose message
    is present (a non-empty dictionary) and whose publication is answered.
    When the message has no chat, or a chat object without [id], the turn of
    the loop appends the publish POST (with the failure line if the answer is
    an error), appends no acknowledgement, and returns the cursor
    [update_id + 1]; no acknowledgement is appended whatever the network
    does.  The same update with a chat id [c] put in gives the same publish
    POST and the same cursor, with the acknowledgement to [c] after the
    publication.  When [chat] is present but is not a dictionary (for
    instance [null]), the publish POST is made and the turn then raises
    [AttributeError], before any acknowledgement and before the cursor
    step. *)
Theorem no_chat_id_no_acknowledgement
    (upd m : gmap string json) (offset : json) (net : network) (t : list event)
    (z : Z) (text : string) (rp : response)
    (Hid : upd !! "update_id" = Some (JInt z))
    (Hmsg : upd !! "message" = Some (JObj m)) (Hsize : size m <> 0%nat)
    (Htext : build_forward_text (JObj m) = Return text)
    (Hpublish : net (requests_made t) = inr rp) :
  let published :=
    t ++ HttpPost (API_URL +:+ "/sendMessage") (send_message_payload text)
         :: map Stdout (publish_log rp) in
  (chat_id_of (JObj m) = Return JNull ->
     process_update offset (JObj upd) net t = (Return (JInt (z + 1)), published) /\
     publish_attempts published = S (publish_attempts t) /\
     acknowledgements published = acknowledgements t /\
     (forall (net' : network) (t' : list event),
        acknowledgements (process_update offset (JObj upd) net' t').2 = acknowledgements t')) /\
  (forall (c : json) (ra : response),
     is_not_None c = true ->
     net (S (requests_made t)) = inr ra ->
     process_update offset
       (JObj (<["message" := JObj (<["chat" := JObj {["id" := c]}]> m)]> upd)) net t =
       (Return (JInt (z + 1)),
        published ++ [HttpPost (API_URL +:+ "/sendMessage") (confirm_payload c)])) /\
  (forall v : json,
     m !! "chat" = Some v -> is_dict v = false ->
     process_update offset (JObj upd) net t = (Raise (no_attribute v "get"), published)).
Proof.
  cbn zeta. split; [| split].
  - intros Hchat. repeat split.
    + rewrite process_update_obj. cbn zeta. rewrite Hmsg, Hid. cbn [default from_option id].
      rewrite (truthy_obj_size m Hsize), Htext, (send_message_answered text net t rp Hpublish).
      now rewrite Hchat.
    + rewrite publish_attempts_app, publish_attempts_cons, is_publish_post.
      assert (Hlog : publish_attempts (map Stdout (publish_log rp)) = 0%nat).
      { unfold publish_log. now destruct (raise_for_status rp). }
      rewrite Hlog. lia.
    + rewrite acknowledgements_app, acknowledgements_cons, is_acknowledge_post.
      assert (Hlog : acknowledgements (map Stdout (publish_log rp)) = 0%nat).
      { unfold publish_log. now destruct (raise_for_status rp). }
      rewrite Hlog. lia.
    + intros net' t'. rewrite process_update_obj. cbn zeta. rewrite Hmsg, Hid.
      cbn [default from_option id]. rewrite (truthy_obj_size m Hsize), Htext, Hchat.
      destruct (send_message_counts text net' t') as [_ Hack].
      destruct (send_message text net' t') as [[[] | e] t1]; cbn [snd] in *; exact Hack.
  - intros c ra Hc Hack.
    rewrite process_update_obj. cbn zeta.
    rewrite lookup_insert_eq, lookup_insert_ne, Hid by done. cbn [default from_option id].
    rewrite (truthy_obj_lookup _ "chat" (JObj {["id" := c]})) by apply lookup_insert_eq.
    rewrite (build_forward_text_ext (<["chat" := JObj {["id" := c]}]> m) m)
      by (now rewrite lookup_insert_ne).
    assert (Hchat : chat_id_of (JObj (<["chat" := JObj {["id" := c]}]> m)) = Return c).
    { unfold chat_id_of. rewrite py_get_default_obj, lookup_insert_eq.
      cbn [default from_option id rbind]. rewrite py_get_obj, lookup_singleton_eq.
      reflexivity. }
    rewrite Htext, (send_message_answered text net t rp Hpublish), Hchat, Hc.
    rewrite acknowledge_spec, requests_made_logged, Hack by reflexivity.
    reflexivity.
  - intros v Hchat Hshape.
    rewrite process_update_obj. cbn zeta. rewrite Hmsg. cbn [default from_option id].
    rewrite (truthy_obj_size m Hsize), Htext, (send_message_answered text net t rp Hpublish).
    unfold chat_id_of. rewrite py_get_default_obj, Hchat. cbn [default from_option id rbind].
    destruct v; try discriminate Hshape; reflexivity.
Qed.

(** *** The fetch and its failures *)

Lemma get_updates_spec (offset : json) (timeout : Z) (net : network) (t : list event) :
  get_updates offset timeout net t =
    (match net (requests_made t) with
     | inl msg => Raise (Exn RequestException msg)
     | inr r =>
         match raise_for_status r with
         | Raise e => Raise e
         | Return _ => response_json r
         end
     end,
     t ++ [HttpGet (API_URL +:+ "/getUpdates") (get_updates_params offset timeout) (timeout + 5)]).
Proof.
  unfold get_updates, bind, requests_get, answer, lift.
  destruct (net (requests_made t)) as [msg | r]; [reflexivity |].
  now destruct (raise_for_status r).
Qed.

(** C5 (amended): on a transport failure, an error status or an undecodable
    body, [get_updates] raises to [main]; the loop catches the exception,
    prints it, sleeps 5 seconds and starts its next turn with the same
    cursor. *)
Theorem fetch_failure_is_caught_and_retried
    (offset : json) (net : network) (t : list event) (exc : exn)
    (Hfail : fetch_error (net (requests_made t)) = Some exc) :
  let request :=
    HttpGet (API_URL +:+ "/getUpdates") (get_updates_params offset 30) 35 in
  get_updates offset 30 net t = (Raise exc, t ++ [request]) /\
  loop_body offset net t =
    (Return offset, t ++ [request; Stdout (fetch_failed_line exc); Slept 5]) /\
  (forall turns : nat,
     relay_loop (S turns) offset net t =
     relay_loop turns offset net (t ++ [request; Stdout (fetch_failed_line exc); Slept 5])).
Proof.
  cbn zeta.
  assert (Hget : get_updates offset 30 net t =
            (Raise exc,
             t ++ [HttpGet (API_URL +:+ "/getUpdates") (get_updates_params offset 30) 35])).
  { rewrite get_updates_spec. f_equal. unfold fetch_error, response_json in *.
    destruct (net (requests_made t)) as [msg | r]; [congruence |].
    destruct (raise_for_status r); [| congruence].
    destruct (resp_json r); congruence. }
  assert (Hbody : loop_body offset net t =
            (Return offset,
             t ++ [HttpGet (API_URL +:+ "/getUpdates") (get_updates_params offset 30) 35;
                   Stdout (fetch_failed_line exc); Slept 5])).
  { unfold loop_body, bind at 1, attempt. rewrite Hget.
    unfold bind, print, sleep, emit, ret. now rewrite <- !app_assoc. }
  split; [exact Hget | split; [exact Hbody |]].
  intros turns. cbn [relay_loop]. unfold bind at 1. now rewrite Hbody.
Qed.

(** C6: when the fetch is answered and the decoded body is a dictionary whose
    [ok] is false (or missing, or falsy), the turn of the loop consists of
    the request, one console line and a 5-second sleep; the cursor is
    returned unchanged and no POST is made. *)
Theorem logical_failure_skips_the_batch
    (offset : json) (net : network) (t : list event) (r : response) (m : gmap string json)
    (Hanswer : net (requests_made t) = inr r)
    (Hstatus : raise_for_status r = Return tt)
    (Hbody : resp_json r = inr (JObj m))
    (Hok : truthy (default (JBool false) (m !! "ok")) = false) :
  let t' := t ++ [HttpGet (API_URL +:+ "/getUpdates") (get_updates_params offset 30) 35;
                  Stdout ("Telegram API вернул ошибку: " +:+ py_str (JObj m));
                  Slept 5] in
  loop_body offset net t = (Return offset, t') /\
  publish_attempts t' = publish_attempts t /\
  acknowledgements t' = acknowledgements t.
Proof.
  cbn zeta. split; [| split].
  - unfold loop_body, bind at 1, attempt.
    rewrite get_updates_spec, Hanswer, Hstatus. unfold response_json. rewrite Hbody.
    rewrite py_get_default_obj. unfold bind at 1. unfold lift at 1. rewrite Hok.
    cbn [negb]. unfold bind, print, sleep, emit, ret, api_error_line.
    now rewrite <- !app_assoc.
  - rewrite publish_attempts_app, !publish_attempts_cons. cbn [is_publish].
    change (publish_attempts []) with 0%nat. lia.
  - rewrite acknowledgements_app, !acknowledgements_cons. cbn [is_acknowledge].
    change (acknowledgements []) with 0%nat. lia.
Qed.

(** ** Further properties of the code *)

(** *** The published text *)

(** X1: the text built for the channel reads the keys [text], [caption] and
    [location] only: setting any other key of the message (the sender, the
    chat, the date) to any value leaves the result as it was. *)
Theorem published_text_ignores_other_fields
    (m : gmap string json) (key : string) (v : json)
    (Htext : key <> "text") (Hcaption : key <> "caption") (Hlocation : key <> "location") :
  build_forward_text (JObj (<[key := v]> m)) = build_forward_text (JObj m) /\
  build_forward_text (JObj (delete key m)) = build_forward_text (JObj m).
Proof.
  split; apply build_forward_text_ext;
    first [now apply lookup_insert_ne | now apply lookup_delete_ne].
Qed.

Lemma append_not_empty (a b : string) : a <> EmptyString -> a +:+ b <> EmptyString.
Proof. destruct a; [congruence | discriminate]. Qed.

Lemma join_not_empty (sep p : string) (ps : list string) :
  p <> EmptyString -> join sep (p :: ps) <> EmptyString.
Proof.
  intros Hp. destruct ps as [| q qs]; [exact Hp |].
  change (p +:+ sep +:+ join sep (q :: qs) <> EmptyString). now apply append_not_empty.
Qed.

Lemma build_forward_text_returns
    (m : gmap string json) (Hloc : location_well_typed m = true) :
  exists s, build_forward_text (JObj m) = Return s /\ s <> EmptyString.
Proof.
  rewrite (build_forward_text_obj m Hloc). eexists; split; [reflexivity |].
  destruct (truthy (chosen_text m)); cbn [app].
  - apply join_not_empty. unfold text_block. now apply append_not_empty.
  - destruct (m !! "location") as [[| | | | | |loc]|]; try discriminate.
    destruct (truthy (JObj loc)); [| discriminate].
    apply join_not_empty. unfold location_block. now apply append_not_empty.
Qed.

(** X2: for a message whose location, if any, is an object,
    [build_forward_text] returns a string, and that string is never empty. *)
Theorem build_forward_text_never_empty
    (m : gmap string json) (Hloc : location_well_typed m = true) :
  exists s, build_forward_text (JObj m) = Return s /\ s <> EmptyString.
Proof. exact (build_forward_text_returns m Hloc). Qed.

(** X3: a [location] that is truthy but not a dictionary makes
    [build_forward_text] raise [AttributeError] (it has no [get]); the turn of
    the loop on such a message raises it before any request is made. *)
Theorem malformed_location_raises
    (upd m : gmap string json) (v : json) (offset : json) (net : network) (t : list event)
    (Hlocation : m !! "location" = Some v)
    (Htruthy : truthy v = true) (Hshape : is_dict v = false)
    (Hmsg : upd !! "message" = Some (JObj m)) :
  build_forward_text (JObj m) = Raise (no_attribute v "get") /\
  process_update offset (JObj upd) net t = (Raise (no_attribute v "get"), t).
Proof.
  assert (Hbft : build_forward_text (JObj m) = Raise (no_attribute v "get")).
  { unfold build_forward_text. rewrite !py_get_obj, Hlocation. cbn [rbind].
    destruct (truthy (default JNull (m !! "text"))); cbn [rbind];
      rewrite ?py_get_obj; cbn [rbind default from_option id]; rewrite Htruthy;
      destruct v; try discriminate Hshape; reflexivity. }
  split; [exact Hbft |].
  rewrite process_update_obj. cbn zeta. rewrite Hmsg. cbn [default from_option id].
  now rewrite (truthy_obj_lookup m _ _ Hlocation), Hbft.
Qed.

(** X4: when neither [text] nor [caption] is usable and the location is a
    non-empty object, the result is the location block alone; a coordinate
    the object lacks is printed as [None]. *)
Theorem location_only_message
    (m loc : gmap string json)
    (Htext : truthy (chosen_text m) = false)
    (Hlocation : m !! "location" = Some (JObj loc)) (Hsize : size loc <> 0%nat) :
  build_forward_text (JObj m) =
    Return ("<b>Местоположение:</b> " +:+ py_str (default JNull (loc !! "latitude")) +:+
            ", " +:+ py_str (default JNull (loc !! "longitude"))) /\
  (loc !! "latitude" = None ->
   build_forward_text (JObj m) =
     Return ("<b>Местоположение:</b> None, " +:+ py_str (default JNull (loc !! "longitude")))).
Proof.
  assert (Hbft : build_forward_text (JObj m) =
            Return (location_block (default JNull (loc !! "latitude"))
                                   (default JNull (loc !! "longitude")))).
  { rewrite build_forward_text_obj by (unfold location_well_typed; now rewrite Hlocation).
    now rewrite Htext, Hlocation, (truthy_obj_size loc Hsize). }
  split; [exact Hbft |].
  intros Hlat. rewrite Hbft, Hlat. reflexivity.
Qed.

(** X5: a [location] that is falsy ([null], an empty object) counts for
    nothing: the result is that of the message without the key. *)
Theorem falsy_location_is_ignored
    (m : gmap string json) (v : json)
    (Hlocation : m !! "location" = Some v) (Hfalsy : truthy v = false) :
  build_forward_text (JObj m) = build_forward_text (JObj (delete "location" m)).
Proof.
  unfold build_forward_text. rewrite !py_get_obj.
  rewrite !(lookup_delete_ne m "location") by done.
  rewrite lookup_delete_eq, Hlocation. cbn [rbind default from_option id].
  destruct (truthy (default JNull (m !! "text"))); cbn [rbind];
    rewrite ?py_get_obj, ?(lookup_delete_ne m "location") by done;
    cbn [rbind]; now rewrite Hfalsy.
Qed.

(** *** A turn of the loop, request by request *)

(** The turn of [while True] once the fetch has given a dictionary whose [ok]
    is truthy. *)
Lemma loop_body_fetched (offset : json) (net : network) (t : list event)
    (r : response) (body : gmap string json) (items : list json) :
  net (requests_made t) = inr r ->
  raise_for_status r = Return tt ->
  resp_json r = inr (JObj body) ->
  truthy (default (JBool false) (body !! "ok")) = true ->
  py_iter (default (JArr []) (body !! "result")) = Return items ->
  loop_body offset net t =
    match for_each process_update items offset net
            (t ++ [HttpGet (API_URL +:+ "/getUpdates") (get_updates_params offset 30) 35]) with
    | (Return offset', t') => (Return offset', t' ++ [Slept 1])
    | (Raise e, t') => (Raise e, t')
    end.
Proof.
  intros Hanswer Hstatus Hbody Hok Hitems.
  unfold loop_body, bind at 1, attempt.
  rewrite get_updates_spec, Hanswer, Hstatus. unfold response_json. rewrite Hbody.
  rewrite !py_get_default_obj. unfold bind at 1. unfold lift at 1. rewrite Hok. cbn [negb].
  unfold bind at 1. unfold lift at 1.
  unfold bind at 1. unfold lift at 1. rewrite Hitems.
  unfold bind at 1.
  destruct (for_each _ _ _ _ _) as [[offset' | e] t']; reflexivity.
Qed.

(** X6: a transport failure of the channel POST is not caught anywhere: the
    turn of [while True] raises the exception right after that POST, without
    acknowledgement, cursor step, sleep or a look at the rest of the batch,
    and the loop ends with it. *)
Theorem publish_transport_failure_stops_the_bot
    (offset : json) (net : network) (t : list event) (r : response)
    (body upd m : gmap string json) (rest : list json) (text msg : string)
    (Hanswer : net (requests_made t) = inr r)
    (Hstatus : raise_for_status r = Return tt)
    (Hbody : resp_json r = inr (JObj body))
    (Hok : truthy (default (JBool false) (body !! "ok")) = true)
    (Hresult : body !! "result" = Some (JArr (JObj upd :: rest)))
    (Hmsg : upd !! "message" = Some (JObj m)) (Hsize : size m <> 0%nat)
    (Htext : build_forward_text (JObj m) = Return text)
    (Hdown : net (S (requests_made t)) = inl msg) :
  let t' := t ++ [HttpGet (API_URL +:+ "/getUpdates") (get_updates_params offset 30) 35;
                  HttpPost (API_URL +:+ "/sendMessage") (send_message_payload text)] in
  loop_body offset net t = (Raise (Exn RequestException msg), t') /\
  (forall turns, relay_loop (S turns) offset net t = (Raise (Exn RequestException msg), t')).
Proof.
  cbn zeta.
  assert (Hturn : loop_body offset net t =
            (Raise (Exn RequestException msg),
             t ++ [HttpGet (API_URL +:+ "/getUpdates") (get_updates_params offset 30) 35;
                   HttpPost (API_URL +:+ "/sendMessage") (send_message_payload text)])).
  { rewrite (loop_body_fetched offset net t r body (JObj upd :: rest))
      by (try assumption; now rewrite Hresult).
    cbn [for_each]. unfold bind at 1.
    rewrite process_update_obj. cbn zeta. rewrite Hmsg. cbn [default from_option id].
    rewrite (truthy_obj_size m Hsize), Htext, send_message_spec. cbn zeta.
    rewrite requests_made_get, Hdown. now rewrite <- app_assoc. }
  split; [exact Hturn |].
  intros turns. cbn [relay_loop]. unfold bind at 1. now rewrite Hturn.
Qed.

(** X7: the response to the acknowledgement is never looked at: whatever its
    status, the turn on an update with an integer [update_id] whose message
    names a chat, once published, consists of the two POSTs and leaves the
    cursor just past the update. *)
Theorem acknowledgement_status_is_ignored
    (offset : json) (net : network) (t : list event)
    (upd m : gmap string json) (z : Z) (text : string) (c : json) (rp ra : response)
    (Hid : upd !! "update_id" = Some (JInt z))
    (Hmsg : upd !! "message" = Some (JObj m)) (Hsize : size m <> 0%nat)
    (Htext : build_forward_text (JObj m) = Return text)
    (Hchat : chat_id_of (JObj m) = Return c) (Hc : is_not_None c = true)
    (Hpublish : net (requests_made t) = inr rp) (Hstatus : raise_for_status rp = Return tt)
    (Hack : net (S (requests_made t)) = inr ra) :
  process_update offset (JObj upd) net t =
    (Return (JInt (z + 1)),
     t ++ [HttpPost (API_URL +:+ "/sendMessage") (send_message_payload text);
           HttpPost (API_URL +:+ "/sendMessage") (confirm_payload c)]).
Proof.
  rewrite process_update_obj. cbn zeta. rewrite Hmsg, Hid. cbn [default from_option id].
  rewrite (truthy_obj_size m Hsize), Htext, send_message_spec. cbn zeta.
  rewrite Hpublish, Hstatus, Hchat, Hc, acknowledge_spec, requests_made_post, Hack.
  cbn [is_not_None py_add1]. now rewrite <- app_assoc.
Qed.

(** X8: a transport failure of the acknowledgement is not caught either: the
    turn raises after both POSTs, the cursor step is not reached. *)
Theorem acknowledgement_transport_failure_raises
    (offset : json) (net : network) (t : list event)
    (upd m : gmap string json) (text msg : string) (c : json) (rp : response)
    (Hmsg : upd !! "message" = Some (JObj m)) (Hsize : size m <> 0%nat)
    (Htext : build_forward_text (JObj m) = Return text)
    (Hchat : chat_id_of (JObj m) = Return c) (Hc : is_not_None c = true)
    (Hpublish : net (requests_made t) = inr rp) (Hstatus : raise_for_status rp = Return tt)
    (Hdown : net (S (requests_made t)) = inl msg) :
  process_update offset (JObj upd) net t =
    (Raise (Exn RequestException msg),
     t ++ [HttpPost (API_URL +:+ "/sendMessage") (send_message_payload text);
           HttpPost (API_URL +:+ "/sendMessage") (confirm_payload c)]).
Proof.
  rewrite process_update_obj. cbn zeta. rewrite Hmsg. cbn [default from_option id].
  rewrite (truthy_obj_size m Hsize), Htext, send_message_spec. cbn zeta.
  rewrite Hpublish, Hstatus, Hchat, Hc, acknowledge_spec, requests_made_post, Hdown.
  now rewrite <- app_assoc.
Qed.

(** X9: only the fetch is guarded.  When a turn of [while True] raises, the
    fetch itself had succeeded, and the exception ends the loop however many
    turns were to follow. *)
Theorem exceptions_after_the_fetch_end_the_loop
    (offset : json) (net : network) (t t' : list event) (e : exn)
    (Hraise : loop_body offset net t = (Raise e, t')) :
  fetch_error (net (requests_made t)) = None /\
  (forall turns, relay_loop (S turns) offset net t = (Raise e, t')).
Proof.
  split.
  - revert Hraise. unfold loop_body, bind at 1, attempt. rewrite get_updates_spec.
    unfold fetch_error, response_json.
    destruct (net (requests_made t)) as [msg | r].
    { unfold bind, print, sleep, emit, ret. discriminate. }
    destruct (raise_for_status r).
    2: { unfold bind, print, sleep, emit, ret. discriminate. }
    destruct (resp_json r); [| reflexivity].
    unfold bind, print, sleep, emit, ret. discriminate.
  - intros turns. cbn [relay_loop]. unfold bind at 1. now rewrite Hraise.
Qed.

(** X10: a body that decodes to something else than a dictionary (a list, a
    string, [null]) is not handled: the turn raises [AttributeError] right
    after the request. *)
Theorem non_dictionary_body_raises
    (offset : json) (net : network) (t : list event) (r : response) (v : json)
    (Hanswer : net (requests_made t) = inr r)
    (Hstatus : raise_for_status r = Return tt)
    (Hbody : resp_json r = inr v) (Hshape : is_dict v = false) :
  loop_body offset net t =
    (Raise (no_attribute v "get"),
     t ++ [HttpGet (API_URL +:+ "/getUpdates") (get_updates_params offset 30) 35]).
Proof.
  unfold loop_body, bind at 1, attempt.
  rewrite get_updates_spec, Hanswer, Hstatus. unfold response_json. rewrite Hbody.
  unfold bind, lift. destruct v; try discriminate Hshape; reflexivity.
Qed.

(** X11: a successful answer with no updates ([result] empty or missing)
    costs one request and a 1-second sleep, and keeps the cursor. *)
Theorem empty_batch_keeps_cursor
    (offset : json) (net : network) (t : list event) (r : response) (body : gmap string json)
    (Hanswer : net (requests_made t) = inr r)
    (Hstatus : raise_for_status r = Return tt)
    (Hbody : resp_json r = inr (JObj body))
    (Hok : truthy (default (JBool false) (body !! "ok")) = true)
    (Hresult : body !! "result" = None \/ body !! "result" = Some (JArr [])) :
  loop_body offset net t =
    (Return offset,
     t ++ [HttpGet (API_URL +:+ "/getUpdates") (get_updates_params offset 30) 35; Slept 1]).
Proof.
  rewrite (loop_body_fetched offset net t r body [])
    by (try assumption; now destruct Hresult as [-> | ->]).
  cbn [for_each]. unfold ret. now rewrite <- app_assoc.
Qed.

(** X12: a turn of [while True] that completes always ends with a sleep, of 1
    or 5 seconds; when it is 5 the cursor has not moved. *)
Theorem every_completed_turn_sleeps
    (offset offset' : json) (net : network) (t t' : list event)
    (Hturn : loop_body offset net t = (Return offset', t')) :
  exists t0 seconds,
    t' = t0 ++ [Slept seconds] /\
    (seconds = 1 \/ seconds = 5 /\ offset' = offset).
Proof.
  revert Hturn. unfold loop_body, bind at 1, attempt.
  destruct (get_updates offset 30 net t) as [[updates | e] t1].
  - unfold bind at 1. unfold lift at 1.
    destruct (py_get_default updates "ok" (JBool false)) as [ok | e]; [| discriminate].
    destruct (truthy ok); cbn [negb].
    + unfold bind at 1. unfold lift at 1.
      destruct (py_get_default updates "result" (JArr [])) as [batch | e]; [| discriminate].
      unfold bind at 1. unfold lift at 1.
      destruct (py_iter batch) as [items | e]; [| discriminate].
      unfold bind at 1.
      destruct (for_each _ _ _ _ _) as [[o | e] t2]; [| discriminate].
      unfold bind, sleep, emit, ret. intros [= <- <-]. exists t2, 1. now split; [| left].
    + unfold bind, print, sleep, emit, ret. intros [= <- <-].
      eexists _, 5. split; [reflexivity | now right].
  - unfold bind, print, sleep, emit, ret. intros [= <- <-].
    eexists _, 5. split; [reflexivity | now right].
Qed.

(** *** A batch of well-formed updates *)

Lemma truthy_empty_obj : truthy (JObj ∅) = false.
Proof. reflexivity. Qed.

Lemma chat_id_of_well_typed (m : gmap string json) :
  chat_well_typed m = true -> chat_id_of (JObj m) = Return (sender_chat_id m).
Proof.
  unfold chat_well_typed, chat_id_of, sender_chat_id. rewrite py_get_default_obj.
  destruct (m !! "chat") as [[| | | | | |c]|]; try discriminate; intros _;
    cbn [default from_option id rbind]; rewrite py_get_obj; [reflexivity |].
  now rewrite lookup_empty.
Qed.

Lemma process_update_well_formed (offset u : json) (net : network) (t : list event) :
  well_formed_update u = true -> online net ->
  exists t',
    process_update offset u net t = (Return (next_cursor u offset), t') /\
    publish_attempts t' = (publish_attempts t + if message_bearing u then 1 else 0)%nat /\
    acknowledgements t' = (acknowledgements t + if names_a_chat u then 1 else 0)%nat.
Proof.
  intros Hwf Hnet. destruct u as [| | | | | |upd]; try discriminate Hwf.
  cbn [well_formed_update next_cursor message_bearing names_a_chat] in *.
  rewrite process_update_obj. cbn zeta.
  destruct (upd !! "update_id") as [[| |z| | | |]|]; try discriminate Hwf.
  cbn [andb default from_option id is_not_None py_add1] in *.
  destruct (upd !! "message") as [[| | | | | |m]|]; try discriminate Hwf;
    cbn [default from_option id].
  2: { rewrite truthy_empty_obj. exists t. repeat split; lia. }
  apply andb_prop in Hwf as [Hloc Hchat].
  destruct (truthy (JObj m)) eqn:Hm; cbn [andb].
  2: { exists t. repeat split; lia. }
  destruct (build_forward_text_returns m Hloc) as (text & -> & _).
  destruct (send_message_counts text net t) as [Hpub Hack].
  rewrite send_message_spec in *. cbn zeta in *.
  destruct (Hnet (requests_made t)) as [r Hr]. rewrite Hr in *.
  rewrite (chat_id_of_well_typed m Hchat).
  assert (Hsent : exists t1,
            (match raise_for_status r with
             | Return _ =>
                 (Return tt, t ++ [HttpPost (API_URL +:+ "/sendMessage") (send_message_payload text)])
             | Raise exc =>
                 (Return tt,
                  t ++ [HttpPost (API_URL +:+ "/sendMessage") (send_message_payload text);
                        Stdout (send_failed_line exc r)])
             end) = (Return tt, t1)).
  { destruct (raise_for_status r); eexists; reflexivity. }
  destruct Hsent as [t1 Hsent]. rewrite Hsent in *. cbn [snd] in *.
  destruct (is_not_None (sender_chat_id m)).
  - rewrite acknowledge_spec. destruct (Hnet (requests_made t1)) as [ra ->].
    eexists. split; [reflexivity |].
    rewrite publish_attempts_app, acknowledgements_app, publish_attempts_cons,
      acknowledgements_cons, is_publish_confirm, is_acknowledge_confirm.
    change (publish_attempts []) with 0%nat. change (acknowledgements []) with 0%nat.
    split; lia.
  - exists t1. split; [reflexivity |]. split; lia.
Qed.

Lemma length_filter_cons (f : json -> bool) (u : json) (us : list json) :
  length (filter f (u :: us)) = ((if f u then 1 else 0) + length (filter f us))%nat.
Proof. rewrite filter_cons. now destruct (f u). Qed.

Lemma for_each_well_formed (us : list json) (offset : json) (net : network) (t : list event) :
  Forall (fun u => well_formed_update u = true) us -> online net ->
  exists t',
    for_each process_update us offset net t =
      (Return (fold_left (fun o u => next_cursor u o) us offset), t') /\
    publish_attempts t' = (publish_attempts t + length (filter message_bearing us))%nat /\
    acknowledgements t' = (acknowledgements t + length (filter names_a_chat us))%nat.
Proof.
  intros Hwf Hnet. revert offset t.
  induction Hwf as [| u us Hu _ IH]; intros offset t.
  - exists t. cbn [for_each fold_left]. unfold ret. rewrite !filter_nil. cbn [length].
    repeat split; lia.
  - destruct (process_update_well_formed offset u net t Hu Hnet) as (t1 & Hstep & Hpub & Hack).
    destruct (IH (next_cursor u offset) t1) as (t2 & Hrest & Hpub' & Hack').
    exists t2. cbn [for_each fold_left]. unfold bind at 1. rewrite Hstep, Hrest.
    split; [reflexivity |]. rewrite !length_filter_cons. split; lia.
Qed.

(** X13: over a batch of well-formed updates, with every request answered,
    the loop never raises and the cursor ends just past the last update of
    the batch, wherever it started and whatever the order of the ids. *)
Theorem cursor_follows_last_update
    (us : list json) (upd : gmap string json) (z : Z)
    (offset : json) (net : network) (t : list event)
    (Hwf : Forall (fun u => well_formed_update u = true) (us ++ [JObj upd]))
    (Hnet : online net)
    (Hid : upd !! "update_id" = Some (JInt z)) :
  (for_each process_update (us ++ [JObj upd]) offset net t).1 = Return (JInt (z + 1)).
Proof.
  destruct (for_each_well_formed _ offset net t Hwf Hnet) as (t' & -> & _).
  cbn [fst]. rewrite fold_left_app. cbn [fold_left next_cursor]. now rewrite Hid.
Qed.

(** X14: over such a batch, every update that carries a message is published
    exactly once and every one whose message names a chat is acknowledged
    exactly once; the other updates cause no POST. *)
Theorem each_message_is_published_once
    (us : list json) (offset : json) (net : network) (t : list event)
    (Hwf : Forall (fun u => well_formed_update u = true) us)
    (Hnet : online net) :
  publish_attempts (for_each process_update us offset net t).2 =
    (publish_attempts t + length (filter message_bearing us))%nat /\
  acknowledgements (for_each process_update us offset net t).2 =
    (acknowledgements t + length (filter names_a_chat us))%nat.
Proof.
  destruct (for_each_well_formed us offset net t Hwf Hnet) as (t' & -> & Hpub & Hack).
  now split.
Qed.

(** *** The shape of a turn *)

Lemma process_update_extends (offset u : json) (net : network) (t : list event) :
  exists new, (process_update offset u net t).2 = t ++ new.
Proof.
  destruct u as [| | | | | |upd];
    try (exists []; unfold process_update, bind, lift; cbn [py_get py_get_default snd];
         now rewrite app_nil_r).
  rewrite process_update_obj. cbn zeta.
  destruct (truthy _); [| exists []; cbn [snd]; now rewrite app_nil_r].
  destruct (build_forward_text _) as [text | e]; [| exists []; cbn [snd]; now rewrite app_nil_r].
  rewrite send_message_spec. cbn zeta.
  destruct (net (requests_made t)) as [msg | r]; [eexists; reflexivity |].
  destruct (raise_for_status r);
    (destruct (chat_id_of _) as [chat_id | ?]; [| eexists; reflexivity]);
    (destruct (is_not_None chat_id);
     [rewrite acknowledge_spec; destruct (net _); cbn [snd]; rewrite <- app_assoc;
      eexists; reflexivity
     | eexists; reflexivity]).
Qed.

Lemma for_each_extends (us : list json) (offset : json) (net : network) (t : list event) :
  exists new, (for_each process_update us offset net t).2 = t ++ new.
Proof.
  revert offset t. induction us as [| u us IH]; intros offset t.
  - exists []. cbn [for_each]. unfold ret. cbn [snd]. now rewrite app_nil_r.
  - cbn [for_each]. unfold bind at 1.
    destruct (process_update_extends offset u net t) as [new Hnew].
    destruct (process_update offset u net t) as [[offset' | e] t1]; cbn [snd] in Hnew; subst t1.
    + destruct (IH offset' (t ++ new)) as [new' ->]. exists (new ++ new').
      now rewrite app_assoc.
    + now exists new.
Qed.

Lemma loop_body_extends (offset : json) (net : network) (t : list event) :
  exists rest,
    (loop_body offset net t).2 =
      t ++ HttpGet (API_URL +:+ "/getUpdates") (get_updates_params offset 30) 35 :: rest.
Proof.
  unfold loop_body, bind at 1, attempt. rewrite get_updates_spec.
  set (request := HttpGet _ _ _).
  destruct (match net (requests_made t) with inl _ => _ | inr _ => _ end) as [updates | e].
  - unfold bind at 1. unfold lift at 1.
    destruct (py_get_default updates "ok" (JBool false)) as [ok | e];
      [| exists []; reflexivity].
    destruct (truthy ok); cbn [negb].
    + unfold bind at 1. unfold lift at 1.
      destruct (py_get_default updates "result" (JArr [])) as [batch | e];
        [| exists []; reflexivity].
      unfold bind at 1. unfold lift at 1.
      destruct (py_iter batch) as [items | e]; [| exists []; reflexivity].
      unfold bind at 1.
      destruct (for_each_extends items offset net (t ++ [request])) as [new Hnew].
      destruct (for_each _ _ _ _ _) as [[o | e] t2]; cbn [snd] in Hnew; subst t2.
      * unfold bind, sleep, emit, ret. cbn [snd]. exists (new ++ [Slept 1]).
        now rewrite <- !app_assoc.
      * exists new. cbn [snd]. now rewrite <- app_assoc.
    + unfold bind, print, sleep, emit, ret. cbn [snd]. eexists.
      rewrite <- !app_assoc. reflexivity.
  - unfold bind, print, sleep, emit, ret. cbn [snd]. eexists.
    rewrite <- !app_assoc. reflexivity.
Qed.

(** X15: whatever happens next, a turn of [while True] begins with the one
    long-poll request for the current cursor: a GET of [getUpdates] that asks
    for [message] updates only, with a 30-second poll and a 35-second client
    timeout. *)
Theorem every_turn_starts_with_the_fetch (offset : json) (net : network) (t : list event) :
  (exists rest,
     (loop_body offset net t).2 =
       t ++ HttpGet (API_URL +:+ "/getUpdates") (get_updates_params offset 30) 35 :: rest) /\
  get_updates_params offset 30 !! "timeout" = Some (JInt 30) /\
  get_updates_params offset 30 !! "allowed_updates" = Some (JArr [JStr "message"]).
Proof.
  split; [apply loop_body_extends | split].
  - unfold get_updates_params. destruct (truthy offset);
      rewrite ?(lookup_insert_ne _ "offset") by done; apply lookup_insert_eq.
  - unfold get_updates_params. destruct (truthy offset);
      rewrite ?(lookup_insert_ne _ "offset") by done;
      rewrite lookup_insert_ne by done; apply lookup_insert_eq.
Qed.

(** X17: a turn that fetched a batch of well-formed updates, every request
    being answered, completes with the cursor just past the last update, and
    the turn that follows opens with a fetch for that cursor; unless the last
    id is -1, that request carries it as [offset], which is what makes the
    server drop the batch. *)
Theorem next_fetch_confirms_the_batch
    (offset : json) (net : network) (t : list event) (r : response)
    (body upd : gmap string json) (us : list json) (z : Z)
    (Hanswer : net (requests_made t) = inr r)
    (Hstatus : raise_for_status r = Return tt)
    (Hbody : resp_json r = inr (JObj body))
    (Hok : truthy (default (JBool false) (body !! "ok")) = true)
    (Hresult : body !! "result" = Some (JArr (us ++ [JObj upd])))
    (Hwf : Forall (fun u => well_formed_update u = true) (us ++ [JObj upd]))
    (Hnet : online net)
    (Hid : upd !! "update_id" = Some (JInt z)) :
  exists t1,
    loop_body offset net t = (Return (JInt (z + 1)), t1) /\
    (exists rest,
       (loop_body (JInt (z + 1)) net t1).2 =
         t1 ++ HttpGet (API_URL +:+ "/getUpdates") (get_updates_params (JInt (z + 1)) 30) 35
            :: rest) /\
    (z <> -1 -> get_updates_params (JInt (z + 1)) 30 !! "offset" = Some (JInt (z + 1))).
Proof.
  rewrite (loop_body_fetched offset net t r body (us ++ [JObj upd]))
    by (try assumption; now rewrite Hresult).
  destruct (for_each_well_formed (us ++ [JObj upd]) offset net
              (t ++ [HttpGet (API_URL +:+ "/getUpdates") (get_updates_params offset 30) 35])
              Hwf Hnet) as (t' & -> & _).
  rewrite fold_left_app. cbn [fold_left next_cursor]. rewrite Hid.
  eexists. split; [reflexivity | split; [apply loop_body_extends |]].
  intros Hz. unfold get_updates_params. cbn [truthy].
  destruct (Z.eqb_spec (z + 1) 0) as [Heq | _]; [lia |]. cbn [negb].
  apply lookup_insert_eq.
Qed.

End Bot.




(** ** Start-up *)


Lemma string_eqb_ne (a b : string) : a <> b -> String.eqb a b = false.
Proof. intros Hne. now apply String.eqb_neq. Qed.


Lemma check_config_passes (environ : gmap string string) :
  properly_set environ "BOT_TOKEN" TOKEN_PLACEHOLDER ->
  properly_set environ "CHANNEL_ID" CHANNEL_PLACEHOLDER ->
  check_config (load_config environ) = Return tt.
Proof.
  unfold check_config, load_config, environ_get. cbn [BOT_TOKEN CHANNEL_ID].
  intros (token & -> & Hne & Hph) (channel & -> & Hne' & Hph'). cbn [default from_option id eq_str].
  now rewrite (truthy_str token Hne), (string_eqb_ne _ _ Hph),
    (truthy_str channel Hne'), (string_eqb_ne _ _ Hph').
Qed.


(** The prefilled script checks nothing. *)
Lemma prefilled_main_starts (py_repr : json -> string) (cfg : config)
    (turns : nat) (net : network) (t : list event) :
  main py_repr Prefilled cfg turns net t =
    relay_loop py_repr Prefilled cfg turns JNull net
      (t ++ [Stdout "Запуск бота с заданными токеном и каналом. Нажмите Ctrl+C для остановки."]).
Proof. reflexivity. Qed.

(** X16: the start-up check passes exactly when both variables are set to a
    non-empty value other than the placeholder; in particular a variable set
    to the empty string is refused like a missing one. *)
Theorem check_config_passes_iff (environ : gmap string string) :
  (check_config (load_config environ) = Return tt <->
   properly_set environ "BOT_TOKEN" TOKEN_PLACEHOLDER /\
   properly_set environ "CHANNEL_ID" CHANNEL_PLACEHOLDER) /\
  (environ !! "BOT_TOKEN" = Some EmptyString ->
   check_config (load_config environ) = Raise (Exn RuntimeError NO_TOKEN)) /\
  (properly_set environ "BOT_TOKEN" TOKEN_PLACEHOLDER ->
   environ !! "CHANNEL_ID" = Some EmptyString ->
   check_config (load_config environ) = Raise (Exn RuntimeError NO_CHANNEL)).
Proof.
  split; [split | split].
  - unfold check_config, load_config, environ_get, properly_set. cbn [BOT_TOKEN CHANNEL_ID].
    destruct (environ !! "BOT_TOKEN") as [token |]; cbn [default from_option id];
      [| discriminate].
    destruct token as [| a token]; [discriminate |]. cbn [truthy negb orb].
    destruct (String.eqb_spec (String a token) TOKEN_PLACEHOLDER) as [-> | Hph];
      [discriminate |].
    destruct (environ !! "CHANNEL_ID") as [channel |]; cbn [default from_option id];
      [| discriminate].
    destruct channel as [| b channel]; [discriminate |]. cbn [truthy negb orb eq_str].
    destruct (String.eqb_spec (String b channel) CHANNEL_PLACEHOLDER) as [-> | Hph'];
      [discriminate |].
    intros _. split; eexists; (split; [reflexivity | split; [discriminate | assumption]]).
  - intros [Htoken Hchannel]. now apply check_config_passes.
  - intros Htoken. unfold check_config, load_config, environ_get. cbn [BOT_TOKEN].
    now rewrite Htoken.
  - intros (token & Htoken & Hne & Hph) Hchannel.
    unfold check_config, load_config, environ_get. cbn [BOT_TOKEN CHANNEL_ID].
    rewrite Htoken, Hchannel. cbn [default from_option id].
    now rewrite (truthy_str token Hne), (string_eqb_ne _ _ Hph).
Qed.

(** ** Worked examples *)

(** C1: with the cursor at 13, an update without [update_id] and without a
    message leaves the cursor at [None]. *)
Example cursor_13_is_forgotten :
  process_update sample_repr sample_cfg (JInt 13) (JObj ∅) (answers []) [] = (Return JNull, []).
Proof. reflexivity. Qed.

(** C2 (as stated) fails: a [text] that is present but empty is not used. Alone
    it gives the placeholder, which does not begin with the label; beside a
    caption it gives way to the caption. *)
Lemma empty_text_is_passed_over :
  msg_empty_text !! "text" = Some (JStr EmptyString) /\
  build_forward_text sample_repr (JObj msg_empty_text) = Return "(пустое сообщение)" /\
  msg_empty_text_caption !! "text" = Some (JStr EmptyString) /\
  build_forward_text sample_repr (JObj msg_empty_text_caption) = Return "<b>Сообщение:</b> C".
Proof. repeat split; reflexivity. Qed.

Lemma build_forward_text_text_then_caption_witness :
  (exists rest,
     build_forward_text sample_repr (JObj msg_text_caption) =
       Return ("<b>Сообщение:</b> " +:+ "T" +:+ rest)) /\
  (exists rest,
     build_forward_text sample_repr (JObj msg_caption) =
       Return ("<b>Сообщение:</b> " +:+ "C" +:+ rest)) /\
  build_forward_text sample_repr (JObj (<["caption" := JStr "C"]> ∅)) =
  build_forward_text sample_repr (JObj (<["text" := JStr "C"]> ∅)).
Proof.
  split; [| split].
  - apply (proj1 (build_forward_text_text_then_caption sample_repr msg_text_caption eq_refl) "T");
      [reflexivity | discriminate].
  - apply (proj1 (proj2 (build_forward_text_text_then_caption sample_repr msg_caption eq_refl)) "C");
      [left; reflexivity | reflexivity | discriminate].
  - assert (Hloc : location_well_typed (∅ : gmap string json) = true) by reflexivity.
    apply (proj2 (proj2 (build_forward_text_text_then_caption sample_repr ∅ Hloc)) "C");
      reflexivity.
Defined.

(** C3 (as stated) fails: an update whose message is the empty dictionary has
    no text, no caption and no location, and is skipped without any request. *)
Lemma empty_message_is_skipped :
  update_of 5 ∅ !! "message" = Some (JObj ∅) /\
  build_forward_text sample_repr (JObj ∅) = Return "(пустое сообщение)" /\
  process_update sample_repr sample_cfg JNull (JObj (update_of 5 ∅)) (answers []) [] =
    (Return (JInt 6), []).
Proof. repeat split; reflexivity. Qed.

Lemma bare_message_is_published_as_placeholder_witness :
  build_forward_text sample_repr (JObj msg_bare) = Return "(пустое сообщение)" /\
  (exists r rest,
     process_update sample_repr sample_cfg JNull (JObj (update_of 5 msg_bare))
       (answers [inr (ok_response JNull); inr (ok_response JNull)]) [] =
       (r, [] ++ HttpPost (API_URL sample_cfg +:+ "/sendMessage")
                          (send_message_payload sample_cfg "(пустое сообщение)") :: rest)) /\
  process_update sample_repr sample_cfg JNull (JObj (update_of 5 ∅)) (answers []) [] =
    (Return (JInt (5 + 1)), []).
Proof.
  pose proof (bare_message_is_published_as_placeholder sample_repr sample_cfg msg_bare
                eq_refl eq_refl eq_refl) as (Htext & _ & Hturn & _).
  assert (Hnone : (∅ : gmap string json) !! "text" = None) by reflexivity.
  pose proof (bare_message_is_published_as_placeholder sample_repr sample_cfg ∅
                Hnone Hnone Hnone) as (_ & _ & _ & Hskip).
  split; [exact Htext | split].
  - apply Hturn; [vm_compute; discriminate | reflexivity].
  - apply (Hskip eq_refl (update_of 5 ∅) JNull (answers []) []); reflexivity.
Defined.

Lemma failed_publish_is_logged_and_dropped_witness :
  send_message sample_cfg "T" (answers [inr forbidden_response; inr (ok_response JNull)]) [] =
    (Return tt,
     [HttpPost "https://api.telegram.org/bot123456789:TOKEN/sendMessage"
        (send_message_payload sample_cfg "T");
      Stdout ("Не удалось отправить сообщение: " +:+
              "403 Client Error: Forbidden for url: https://api.telegram.org/" +:+ nl +:+
              "Ответ: " +:+ "bot is not a member of the channel chat")]).
Proof.
  exact (proj1 (failed_publish_is_logged_and_dropped sample_repr sample_cfg "T"
                  (answers [inr forbidden_response; inr (ok_response JNull)]) []
                  forbidden_response
                  (Exn HTTPError "403 Client Error: Forbidden for url: https://api.telegram.org/")
                  eq_refl eq_refl)).
Defined.

(** C5 (as stated) fails: when the connection is refused, [get_updates] raises
    to its caller. *)
Lemma get_updates_raises_to_its_caller :
  get_updates sample_cfg (JInt 13) 30 (answers []) [] =
    (Raise (Exn RequestException "Connection refused"),
     [HttpGet "https://api.telegram.org/bot123456789:TOKEN/getUpdates"
        (get_updates_params (JInt 13) 30) 35]).
Proof. reflexivity. Qed.

Lemma fetch_failure_is_caught_and_retried_witness :
  loop_body sample_repr Original sample_cfg (JInt 13) (answers []) [] =
    (Return (JInt 13),
     [HttpGet "https://api.telegram.org/bot123456789:TOKEN/getUpdates"
        (get_updates_params (JInt 13) 30) 35;
      Stdout ("Ошибка при получении обновлений: Connection refused. Перезапрос через 5" +:+
              nbsp +:+ "секунд.");
      Slept 5]).
Proof.
  exact (proj1 (proj2 (fetch_failure_is_caught_and_retried sample_repr Original sample_cfg
                         (JInt 13) (answers []) []
                         (Exn RequestException "Connection refused") eq_refl))).
Defined.

Lemma logical_failure_skips_the_batch_witness :
  loop_body sample_repr Original sample_cfg (JInt 13)
    (answers [inr (ok_response (JObj failed_batch))]) [] =
    (Return (JInt 13),
     [HttpGet "https://api.telegram.org/bot123456789:TOKEN/getUpdates"
        (get_updates_params (JInt 13) 30) 35;
      Stdout "Telegram API вернул ошибку: <dict>";
      Slept 5]).
Proof.
  exact (proj1 (logical_failure_skips_the_batch sample_repr Original sample_cfg (JInt 13)
                  (answers [inr (ok_response (JObj failed_batch))]) []
                  (ok_response (JObj failed_batch)) failed_batch
                  eq_refl eq_refl eq_refl eq_refl)).
Defined.


(** C8 (as stated) fails: with a [text] that is present but empty, the result
    is the location block alone. *)
Lemma empty_text_leaves_location_alone :
  msg_empty_text_location !! "text" = Some (JStr EmptyString) /\
  msg_empty_text_location !! "location" = Some location_1_2 /\
  build_forward_text sample_repr (JObj msg_empty_text_location) =
    Return "<b>Местоположение:</b> 1.0, 2.0".
Proof. repeat split; reflexivity. Qed.

Lemma build_forward_text_text_and_location_witness :
  build_forward_text sample_repr (JObj msg_text_location) =
    Return ("<b>Сообщение:</b> T" +:+ nl +:+ "<b>Местоположение:</b> 1.0, 2.0").
Proof.
  refine (build_forward_text_text_and_location sample_repr msg_text_location
            (<["latitude" := JFloat 1]> (<["longitude" := JFloat 2]> ∅))
            "T" (JFloat 1) (JFloat 2) eq_refl _ eq_refl eq_refl eq_refl).
  discriminate.
Defined.

Lemma get_updates_offset_zero_is_none_witness :
  (get_updates sample_cfg (JInt 6) 30 (answers []) []).2 =
    [HttpGet "https://api.telegram.org/bot123456789:TOKEN/getUpdates"
       (<["offset" := JInt 6]>
          (<["timeout" := JInt 30]> (<["allowed_updates" := JArr [JStr "message"]]> ∅)))
       35] /\
  get_updates_params (JInt 6) 30 !! "offset" = Some (JInt 6).
Proof.
  destruct (get_updates_offset_zero_is_none sample_cfg 30)
    as (_ & _ & _ & _ & Hforwarded & _ & Hrequest).
  split.
  - apply (Hrequest (JInt 6) (answers []) []). reflexivity.
  - apply Hforwarded. lia.
Defined.

(** C10 (as stated) fails: a message whose [chat] is [null] has no chat id;
    it is published, and the turn then raises instead of moving the cursor. *)
Lemma null_chat_raises_after_publishing :
  msg_null_chat !! "chat" = Some JNull /\
  process_update sample_repr sample_cfg JNull (JObj (update_of 5 msg_null_chat))
    (answers [inr (ok_response JNull)]) [] =
    (Raise (no_attribute JNull "get"),
     [HttpPost "https://api.telegram.org/bot123456789:TOKEN/sendMessage"
        (send_message_payload sample_cfg "<b>Сообщение:</b> T")]).
Proof. split; reflexivity. Qed.

Lemma no_chat_id_no_acknowledgement_witness :
  process_update sample_repr sample_cfg JNull (JObj (update_of 5 msg_no_chat))
    (answers [inr (ok_response JNull)]) [] =
    (Return (JInt (5 + 1)),
     [] ++ HttpPost (API_URL sample_cfg +:+ "/sendMessage")
             (send_message_payload sample_cfg "<b>Сообщение:</b> T")
           :: map Stdout (publish_log (ok_response JNull))).
Proof.
  refine (proj1 (proj1 (no_chat_id_no_acknowledgement sample_repr sample_cfg
                          (update_of 5 msg_no_chat) msg_no_chat JNull
                          (answers [inr (ok_response JNull)]) [] 5 "<b>Сообщение:</b> T"
                          (ok_response JNull) eq_refl eq_refl _ eq_refl eq_refl) eq_refl)).
  vm_compute. discriminate.
Defined.

(** The end-to-end scenario of the specification: one update with text and a
    chat id is published, acknowledged, and the cursor moves past it. *)
Example relay_one_message :
  loop_body sample_repr Original sample_cfg JNull
    (answers [inr (ok_response
                     (JObj (<["ok" := JBool true]>
                              (<["result" := JArr [JObj (update_of 5
                                   (<["text" := JStr "Авария на трассе"]> msg_bare))]]> ∅))));
              inr (ok_response JNull); inr (ok_response JNull)]) [] =
    (Return (JInt 6),
     [HttpGet "https://api.telegram.org/bot123456789:TOKEN/getUpdates"
        (get_updates_params JNull 30) 35;
      HttpPost "https://api.telegram.org/bot123456789:TOKEN/sendMessage"
        (send_message_payload sample_cfg "<b>Сообщение:</b> Авария на трассе");
      HttpPost "https://api.telegram.org/bot123456789:TOKEN/sendMessage"
        (confirm_payload (JInt 999));
      Slept 1]).
Proof. reflexivity. Qed.

(** Updates 10, 11 and 12 leave the cursor at 13. *)
Example cursor_after_three_updates :
  (for_each (process_update sample_repr sample_cfg)
     [JObj (update_of 10 msg_no_chat); JObj (update_of 11 msg_no_chat);
      JObj (update_of 12 msg_no_chat)] JNull
     (answers [inr (ok_response JNull); inr (ok_response JNull); inr (ok_response JNull)]) []).1 =
    Return (JInt 13).
Proof. reflexivity. Qed.

(** C1, the consequence: after update 10 has been published, an update without
    [update_id] and without message makes the next fetch go out with no
    [offset], so the server is free to hand update 10 out again. *)
Example cursor_lost_after_a_published_update :
  (for_each (process_update sample_repr sample_cfg)
     [JObj (update_of 10 msg_no_chat); JObj ∅] JNull
     (answers [inr (ok_response JNull)]) []).1 = Return JNull /\
  get_updates_params JNull 30 !! "offset" = None.
Proof. split; reflexivity. Qed.

(** ** Worked examples for the further properties *)

Lemma published_text_ignores_other_fields_witness :
  build_forward_text sample_repr
    (JObj (<["from" := JObj {["username" := JStr "ivan"]}]> msg_text_location)) =
  build_forward_text sample_repr (JObj msg_text_location).
Proof.
  apply (proj1 (published_text_ignores_other_fields sample_repr msg_text_location "from"
                  (JObj {["username" := JStr "ivan"]})
                  ltac:(discriminate) ltac:(discriminate) ltac:(discriminate))).
Defined.

Lemma build_forward_text_never_empty_witness :
  exists s, build_forward_text sample_repr (JObj msg_empty_text) = Return s /\ s <> EmptyString.
Proof. apply (build_forward_text_never_empty sample_repr msg_empty_text). reflexivity. Defined.

Lemma malformed_location_raises_witness :
  process_update sample_repr sample_cfg JNull (JObj (update_of 5 msg_bad_location))
    (always (ok_response JNull)) [] =
    (Raise (no_attribute (JStr "Chertkovo") "get"), []).
Proof.
  apply (proj2 (malformed_location_raises sample_repr sample_cfg (update_of 5 msg_bad_location)
                  msg_bad_location (JStr "Chertkovo") JNull (always (ok_response JNull)) []
                  eq_refl eq_refl eq_refl eq_refl)).
Defined.

Lemma location_only_message_witness :
  build_forward_text sample_repr (JObj msg_location_only) =
    Return "<b>Местоположение:</b> 1.0, 2.0".
Proof.
  refine (proj1 (location_only_message sample_repr msg_location_only
                   (<["latitude" := JFloat 1]> (<["longitude" := JFloat 2]> ∅))
                   eq_refl eq_refl _)).
  vm_compute. discriminate.
Defined.

Lemma falsy_location_is_ignored_witness :
  build_forward_text sample_repr (JObj msg_null_location) =
  build_forward_text sample_repr (JObj (delete "location" msg_null_location)).
Proof.
  apply (falsy_location_is_ignored sample_repr msg_null_location JNull); reflexivity.
Defined.

Lemma publish_transport_failure_stops_the_bot_witness :
  loop_body sample_repr Original sample_cfg JNull
    (answers [inr (ok_response (JObj (batch_of [JObj (update_of 5 msg_with_chat);
                                                 JObj (update_of 6 msg_with_chat)])))]) [] =
    (Raise (Exn RequestException "Connection refused"),
     [HttpGet "https://api.telegram.org/bot123456789:TOKEN/getUpdates"
        (get_updates_params JNull 30) 35;
      HttpPost "https://api.telegram.org/bot123456789:TOKEN/sendMessage"
        (send_message_payload sample_cfg "<b>Сообщение:</b> T")]).
Proof.
  refine (proj1 (publish_transport_failure_stops_the_bot sample_repr Original sample_cfg JNull
                   (answers [inr (ok_response (JObj (batch_of [JObj (update_of 5 msg_with_chat);
                                                                JObj (update_of 6 msg_with_chat)])))])
                   [] (ok_response (JObj (batch_of [JObj (update_of 5 msg_with_chat);
                                                     JObj (update_of 6 msg_with_chat)])))
                   (batch_of [JObj (update_of 5 msg_with_chat); JObj (update_of 6 msg_with_chat)])
                   (update_of 5 msg_with_chat) msg_with_chat [JObj (update_of 6 msg_with_chat)]
                   "<b>Сообщение:</b> T" "Connection refused"
                   eq_refl eq_refl eq_refl eq_refl eq_refl eq_refl _ eq_refl eq_refl)).
  vm_compute. discriminate.
Defined.

Lemma acknowledgement_status_is_ignored_witness :
  process_update sample_repr sample_cfg JNull (JObj (update_of 5 msg_with_chat))
    (answers [inr (ok_response JNull); inr forbidden_response]) [] =
    (Return (JInt 6),
     [HttpPost "https://api.telegram.org/bot123456789:TOKEN/sendMessage"
        (send_message_payload sample_cfg "<b>Сообщение:</b> T");
      HttpPost "https://api.telegram.org/bot123456789:TOKEN/sendMessage"
        (confirm_payload (JInt 999))]).
Proof.
  refine (acknowledgement_status_is_ignored sample_repr sample_cfg JNull
            (answers [inr (ok_response JNull); inr forbidden_response]) []
            (update_of 5 msg_with_chat) msg_with_chat 5 "<b>Сообщение:</b> T" (JInt 999)
            (ok_response JNull) forbidden_response
            eq_refl eq_refl _ eq_refl eq_refl eq_refl eq_refl eq_refl eq_refl).
  vm_compute. discriminate.
Defined.

Lemma acknowledgement_transport_failure_raises_witness :
  process_update sample_repr sample_cfg JNull (JObj (update_of 5 msg_with_chat))
    (answers [inr (ok_response JNull)]) [] =
    (Raise (Exn RequestException "Connection refused"),
     [HttpPost "https://api.telegram.org/bot123456789:TOKEN/sendMessage"
        (send_message_payload sample_cfg "<b>Сообщение:</b> T");
      HttpPost "https://api.telegram.org/bot123456789:TOKEN/sendMessage"
        (confirm_payload (JInt 999))]).
Proof.
  refine (acknowledgement_transport_failure_raises sample_repr sample_cfg JNull
            (answers [inr (ok_response JNull)]) []
            (update_of 5 msg_with_chat) msg_with_chat "<b>Сообщение:</b> T"
            "Connection refused" (JInt 999) (ok_response JNull)
            eq_refl _ eq_refl eq_refl eq_refl eq_refl eq_refl eq_refl).
  vm_compute. discriminate.
Defined.

Lemma exceptions_after_the_fetch_end_the_loop_witness :
  relay_loop sample_repr Original sample_cfg 3 JNull
    (answers [inr (ok_response (JArr []))]) [] =
    (Raise (no_attribute (JArr []) "get"),
     [HttpGet "https://api.telegram.org/bot123456789:TOKEN/getUpdates"
        (get_updates_params JNull 30) 35]).
Proof.
  apply (proj2 (exceptions_after_the_fetch_end_the_loop sample_repr Original sample_cfg JNull
                  (answers [inr (ok_response (JArr []))]) [] _ _ eq_refl) 2%nat).
Defined.

Lemma non_dictionary_body_raises_witness :
  loop_body sample_repr Original sample_cfg JNull (answers [inr (ok_response (JArr []))]) [] =
    (Raise (no_attribute (JArr []) "get"),
     [HttpGet "https://api.telegram.org/bot123456789:TOKEN/getUpdates"
        (get_updates_params JNull 30) 35]).
Proof.
  apply (non_dictionary_body_raises sample_repr Original sample_cfg JNull
           (answers [inr (ok_response (JArr []))]) [] (ok_response (JArr [])) (JArr []));
    reflexivity.
Defined.

Lemma empty_batch_keeps_cursor_witness :
  loop_body sample_repr Original sample_cfg (JInt 13)
    (answers [inr (ok_response (JObj (batch_of [])))]) [] =
    (Return (JInt 13),
     [HttpGet "https://api.telegram.org/bot123456789:TOKEN/getUpdates"
        (get_updates_params (JInt 13) 30) 35;
      Slept 1]).
Proof.
  apply (empty_batch_keeps_cursor sample_repr Original sample_cfg (JInt 13)
           (answers [inr (ok_response (JObj (batch_of [])))]) []
           (ok_response (JObj (batch_of []))) (batch_of []));
    try reflexivity.
  right; reflexivity.
Defined.

Lemma every_completed_turn_sleeps_witness :
  exists t0 seconds,
    [HttpGet "https://api.telegram.org/bot123456789:TOKEN/getUpdates"
       (get_updates_params (JInt 13) 30) 35;
     Slept 1] = t0 ++ [Slept seconds] /\
    (seconds = 1 \/ seconds = 5 /\ JInt 13 = JInt 13).
Proof.
  apply (every_completed_turn_sleeps sample_repr Original sample_cfg (JInt 13) (JInt 13)
           (answers [inr (ok_response (JObj (batch_of [])))]) []).
  reflexivity.
Defined.

Lemma always_online (r : response) : online (always r).
Proof. intros n. now exists r. Qed.

Lemma cursor_follows_last_update_witness :
  (for_each (process_update sample_repr sample_cfg)
     ([JObj (update_of 12 msg_with_chat); JObj (update_of 11 ∅)] ++
      [JObj (update_of 10 msg_no_chat)])
     JNull (always (ok_response JNull)) []).1 = Return (JInt (10 + 1)).
Proof.
  apply (cursor_follows_last_update sample_repr sample_cfg
           [JObj (update_of 12 msg_with_chat); JObj (update_of 11 ∅)]
           (update_of 10 msg_no_chat) 10 JNull (always (ok_response JNull)) []).
  - repeat constructor.
  - apply always_online.
  - reflexivity.
Defined.

Lemma each_message_is_published_once_witness :
  publish_attempts
    (for_each (process_update sample_repr sample_cfg)
       [JObj (update_of 12 msg_with_chat); JObj (update_of 11 ∅);
        JObj (update_of 10 msg_no_chat)]
       JNull (always forbidden_response) []).2 = 2%nat /\
  acknowledgements
    (for_each (process_update sample_repr sample_cfg)
       [JObj (update_of 12 msg_with_chat); JObj (update_of 11 ∅);
        JObj (update_of 10 msg_no_chat)]
       JNull (always forbidden_response) []).2 = 1%nat.
Proof.
  assert (Hwf : Forall (fun u => well_formed_update u = true)
                  [JObj (update_of 12 msg_with_chat); JObj (update_of 11 ∅);
                   JObj (update_of 10 msg_no_chat)]) by repeat constructor.
  destruct (each_message_is_published_once sample_repr sample_cfg _ JNull
              (always forbidden_response) [] Hwf (always_online forbidden_response))
    as [Hpublished Hacknowledged].
  split; [rewrite Hpublished | rewrite Hacknowledged]; reflexivity.
Defined.

Lemma check_config_passes_iff_witness :
  check_config (load_config {["BOT_TOKEN" := EmptyString]}) = Raise (Exn RuntimeError NO_TOKEN).
Proof.
  apply (proj1 (proj2 (check_config_passes_iff {["BOT_TOKEN" := EmptyString]}))).
  reflexivity.
Defined.

Lemma next_fetch_confirms_the_batch_witness :
  exists t1,
    loop_body sample_repr Original sample_cfg JNull
      (always (ok_response (JObj (batch_of ([JObj (update_of 4 ∅)] ++
                                            [JObj (update_of 5 msg_with_chat)]))))) [] =
      (Return (JInt (5 + 1)), t1).
Proof.
  destruct (next_fetch_confirms_the_batch sample_repr Original sample_cfg JNull
              (always (ok_response (JObj (batch_of ([JObj (update_of 4 ∅)] ++
                                                    [JObj (update_of 5 msg_with_chat)])))))
              []
              (ok_response (JObj (batch_of ([JObj (update_of 4 ∅)] ++
                                            [JObj (update_of 5 msg_with_chat)]))))
              (batch_of ([JObj (update_of 4 ∅)] ++ [JObj (update_of 5 msg_with_chat)]))
              (update_of 5 msg_with_chat) [JObj (update_of 4 ∅)] 5
              eq_refl eq_refl eq_refl eq_refl eq_refl
              ltac:(repeat constructor) (always_online _) eq_refl)
    as (t1 & Hturn & _).
  now exists t1.
Defined.
